(** * nextcloud-dialogs: the file picker

    A shallow embedding of the file picker of nextcloud-dialogs:
    - the [FilePicker] Vue component (script-setup part of FilePicker.vue):
      its refs, the [currentPath] computed with getter and setter, the
      [filteredFiles] pipeline, the [dialogButtons] wrapper, [onCreateFolder]
      and [handleClose];
    - the [FilePicker] class with the close callback of [pick], and the
      [FilePickerBuilder] class.

    Refs of the component are fields of a state record that is passed
    explicitly; [window.sessionStorage] is a finite map from keys to strings;
    the console, the toasts, the event bus and the component's [close] events
    are logs (lists, oldest entry first). *)

From Stdlib Require Import String Ascii List Bool Arith Lia.
From stdpp Require Import base option gmap strings.
Import ListNotations.
Local Open Scope string_scope.
Local Open Scope list_scope.

(** ** JavaScript values used by the code *)

Module Js.

(** Truthiness of a string: every string but the empty one. *)
Definition truthy (s : string) : bool :=
  match s with
  | EmptyString => false
  | String _ _ => true
  end.

(** [a || d] where [a] is a string or [undefined]/[null] and [d] a string. *)
Definition or_else (a : option string) (d : string) : string :=
  match a with
  | Some s => if truthy s then s else d
  | None => d
  end.

(** [s.startsWith(p)] *)
Definition startsWith (p s : string) : bool := String.prefix p s.

(** [hay.includes(needle)]: [needle] occurs in [hay] as a literal
    substring. *)
Fixpoint includes (needle hay : string) : bool :=
  String.prefix needle hay ||
  match hay with
  | EmptyString => false
  | String _ rest => includes needle rest
  end.

(** [s.endsWith(p)] *)
Definition endsWith (p s : string) : bool :=
  let n := String.length s in
  let k := String.length p in
  Nat.leb k n && String.eqb (String.substring (n - k) k s) p.

End Js.

(** ** Nodes of the remote file store *)

(** The kind of a node (the [type] property of a [Node] of
    [@nextcloud/files]). *)
Inductive FileType := file | folder.

Definition FileType_eqb (a b : FileType) : bool :=
  match a, b with
  | file, file | folder, folder => true
  | _, _ => false
  end.

(** A [Node], with the properties the picker reads. [mime] is a string or
    [undefined]. *)
Module Node.
Record t := {
  basename : string;
  path : string;
  type : FileType;
  mime : option string;
}.
End Node.
Abbreviation Node := Node.t.

(** The views of the picker: ['files' | 'favorites' | 'recent']. *)
Inductive View := Files | Favorites | Recent.

(** ** Buttons *)

Inductive ButtonType := primary | secondary.

(** A button. The callback is code of the caller: it is named by an
    identifier, and a call of it is recorded together with the nodes it
    received. *)
Record IFilePickerButton := {
  label : string;
  btype : ButtonType;
  icon : option string;
  callback : nat;
}.

Definition IFilePickerButtonFactory : Type :=
  list Node -> string -> View -> list IFilePickerButton.

(** [IFilePickerButton[] | IFilePickerButtonFactory] *)
Inductive Buttons :=
| ButtonList (l : list IFilePickerButton)
| ButtonFactory (f : IFilePickerButtonFactory).

(** [typeof buttons === 'function'] *)
Definition is_function (b : Buttons) : bool :=
  match b with
  | ButtonFactory _ => true
  | ButtonList _ => false
  end.

Definition IFilePickerFilter : Type := Node -> bool.

(** ** The component (FilePicker.vue) *)

Module FilePickerVue.

(** The props as the caller passes them: an optional prop may be
    [undefined]. *)
Record RawProps := {
  raw_buttons : Buttons;
  raw_name : string;
  raw_allowPickDirectory : option bool;
  raw_container : option string;
  raw_filterFn : option IFilePickerFilter;
  raw_mimetypeFilter : option (list string);
  raw_multiselect : option bool;
  raw_path : option string;
}.

(** The props as the component reads them. *)
Record Props := {
  buttons : Buttons;
  name : string;
  allowPickDirectory : bool;
  container : string;
  filterFn : option IFilePickerFilter;
  mimetypeFilter : list string;
  multiselect : bool;
  path : option string;
}.

(** [withDefaults(defineProps<...>(), {...})]: a prop that is [undefined]
    takes its default. *)
Definition withDefaults (r : RawProps) : Props :=
  {| buttons := raw_buttons r;
     name := raw_name r;
     allowPickDirectory := default false (raw_allowPickDirectory r);
     container := default "body" (raw_container r);
     filterFn := raw_filterFn r;
     mimetypeFilter := default [] (raw_mimetypeFilter r);
     multiselect := default true (raw_multiselect r);
     path := raw_path r |}.

(** The session-storage key of the last path. *)
Definition LastPath : string := "NC.FilePicker.LastPath".

(** The refs of the component, the refs of the composables it uses
    ([files] of useDAVFiles, [showHiddenFiles] of useFilesSettings), and
    what it acts on: the session storage, the console, the toasts, the
    event bus, the callbacks of the caller's buttons and its own [close]
    events. *)
Record State := {
  currentView : View;
  selectedFiles : list Node;
  savedPath : string;
  navigatedPath : option string;
  filterString : string;
  files : list Node;
  showHiddenFiles : bool;
  sessionStorage : gmap string string;
  console : list string;
  toasts : list string;
  eventBus : list (string * option Node);
  buttonCalls : list (nat * list Node);
  closed : list (option (list Node));
}.

(** The state after the script-setup block has run. The first value of
    [showHiddenFiles] is the one of the useFilesSettings composable, which is
    not among the sources; it is modelled from the specification (section 6:
    loaded after an initial default of [false]). *)
Definition setup (storage : gmap string string) : State :=
  {| currentView := Files;
     selectedFiles := [];
     savedPath := Js.or_else (storage !! LastPath) "/";
     navigatedPath := None;
     filterString := "";
     files := [];
     showHiddenFiles := false;
     sessionStorage := storage;
     console := [];
     toasts := [];
     eventBus := [];
     buttonCalls := [];
     closed := [] |}.

(** *** Assignments to single refs *)

Definition set_currentView (v : View) (s : State) : State :=
  {| currentView := v; selectedFiles := selectedFiles s;
     savedPath := savedPath s; navigatedPath := navigatedPath s;
     filterString := filterString s; files := files s;
     showHiddenFiles := showHiddenFiles s;
     sessionStorage := sessionStorage s; console := console s;
     toasts := toasts s; eventBus := eventBus s;
     buttonCalls := buttonCalls s; closed := closed s |}.

Definition set_selectedFiles (l : list Node) (s : State) : State :=
  {| currentView := currentView s; selectedFiles := l;
     savedPath := savedPath s; navigatedPath := navigatedPath s;
     filterString := filterString s; files := files s;
     showHiddenFiles := showHiddenFiles s;
     sessionStorage := sessionStorage s; console := console s;
     toasts := toasts s; eventBus := eventBus s;
     buttonCalls := buttonCalls s; closed := closed s |}.

Definition set_navigatedPath (p : string) (s : State) : State :=
  {| currentView := currentView s; selectedFiles := selectedFiles s;
     savedPath := savedPath s; navigatedPath := Some p;
     filterString := filterString s; files := files s;
     showHiddenFiles := showHiddenFiles s;
     sessionStorage := sessionStorage s; console := console s;
     toasts := toasts s; eventBus := eventBus s;
     buttonCalls := buttonCalls s; closed := closed s |}.

Definition set_filterString (t : string) (s : State) : State :=
  {| currentView := currentView s; selectedFiles := selectedFiles s;
     savedPath := savedPath s; navigatedPath := navigatedPath s;
     filterString := t; files := files s;
     showHiddenFiles := showHiddenFiles s;
     sessionStorage := sessionStorage s; console := console s;
     toasts := toasts s; eventBus := eventBus s;
     buttonCalls := buttonCalls s; closed := closed s |}.

Definition set_files (l : list Node) (s : State) : State :=
  {| currentView := currentView s; selectedFiles := selectedFiles s;
     savedPath := savedPath s; navigatedPath := navigatedPath s;
     filterString := filterString s; files := l;
     showHiddenFiles := showHiddenFiles s;
     sessionStorage := sessionStorage s; console := console s;
     toasts := toasts s; eventBus := eventBus s;
     buttonCalls := buttonCalls s; closed := closed s |}.

Definition set_showHiddenFiles (b : bool) (s : State) : State :=
  {| currentView := currentView s; selectedFiles := selectedFiles s;
     savedPath := savedPath s; navigatedPath := navigatedPath s;
     filterString := filterString s; files := files s;
     showHiddenFiles := b;
     sessionStorage := sessionStorage s; console := console s;
     toasts := toasts s; eventBus := eventBus s;
     buttonCalls := buttonCalls s; closed := closed s |}.

(** [window.sessionStorage.setItem(key, value)] *)
Definition setItem (key value : string) (s : State) : State :=
  {| currentView := currentView s; selectedFiles := selectedFiles s;
     savedPath := savedPath s; navigatedPath := navigatedPath s;
     filterString := filterString s; files := files s;
     showHiddenFiles := showHiddenFiles s;
     sessionStorage := <[key := value]> (sessionStorage s);
     console := console s;
     toasts := toasts s; eventBus := eventBus s;
     buttonCalls := buttonCalls s; closed := closed s |}.

(** [console.warn(msg, ...)] *)
Definition console_warn (msg : string) (s : State) : State :=
  {| currentView := currentView s; selectedFiles := selectedFiles s;
     savedPath := savedPath s; navigatedPath := navigatedPath s;
     filterString := filterString s; files := files s;
     showHiddenFiles := showHiddenFiles s;
     sessionStorage := sessionStorage s; console := console s ++ [msg];
     toasts := toasts s; eventBus := eventBus s;
     buttonCalls := buttonCalls s; closed := closed s |}.

(** [showError(msg)] *)
Definition showError (msg : string) (s : State) : State :=
  {| currentView := currentView s; selectedFiles := selectedFiles s;
     savedPath := savedPath s; navigatedPath := navigatedPath s;
     filterString := filterString s; files := files s;
     showHiddenFiles := showHiddenFiles s;
     sessionStorage := sessionStorage s; console := console s;
     toasts := toasts s ++ [msg]; eventBus := eventBus s;
     buttonCalls := buttonCalls s; closed := closed s |}.

(** [emitOnEventBus(name, payload)]; the payload may be [undefined]. *)
Definition emitOnEventBus (name : string) (payload : option Node)
    (s : State) : State :=
  {| currentView := currentView s; selectedFiles := selectedFiles s;
     savedPath := savedPath s; navigatedPath := navigatedPath s;
     filterString := filterString s; files := files s;
     showHiddenFiles := showHiddenFiles s;
     sessionStorage := sessionStorage s; console := console s;
     toasts := toasts s; eventBus := eventBus s ++ [(name, payload)];
     buttonCalls := buttonCalls s; closed := closed s |}.

(** [button.callback(nodes)], a call into the caller's code. *)
Definition call_button (b : IFilePickerButton) (nodes : list Node)
    (s : State) : State :=
  {| currentView := currentView s; selectedFiles := selectedFiles s;
     savedPath := savedPath s; navigatedPath := navigatedPath s;
     filterString := filterString s; files := files s;
     showHiddenFiles := showHiddenFiles s;
     sessionStorage := sessionStorage s; console := console s;
     toasts := toasts s; eventBus := eventBus s;
     buttonCalls := buttonCalls s ++ [(callback b, nodes)];
     closed := closed s |}.

(** [emit('close', v)]; [emit('close')] passes no nodes. *)
Definition emit_close (v : option (list Node)) (s : State) : State :=
  {| currentView := currentView s; selectedFiles := selectedFiles s;
     savedPath := savedPath s; navigatedPath := navigatedPath s;
     filterString := filterString s; files := files s;
     showHiddenFiles := showHiddenFiles s;
     sessionStorage := sessionStorage s; console := console s;
     toasts := toasts s; eventBus := eventBus s;
     buttonCalls := buttonCalls s; closed := closed s ++ [v] |}.

(** The refs of the picker, without the logs of what it did. *)
Definition same_refs (s s' : State) : Prop :=
  currentView s' = currentView s /\
  selectedFiles s' = selectedFiles s /\
  savedPath s' = savedPath s /\
  navigatedPath s' = navigatedPath s /\
  filterString s' = filterString s /\
  files s' = files s /\
  showHiddenFiles s' = showHiddenFiles s /\
  sessionStorage s' = sessionStorage s.

(** The props the component binds to the dialog. *)
Record DialogProps := {
  dialog_container : string;
  dialog_name : string;
  dialog_buttons : list (IFilePickerButton * (State -> State));
  dialog_size : string;
  contentClasses : list string;
  dialogClasses : list string;
  navigationClasses : list string;
}.

(** *** The script of the component

    Three things the script uses are defined outside of it:
    [String.prototype.toLowerCase], [isSupportedMimeType] of the
    useMimeFilter composable (it closes over the allow-list, which is its
    first argument here), and [getFile] of the useDAVFiles composable
    ([None] when its promise rejects). *)

Section Script.

Variable toLowerCase : string -> string.
Variable isSupportedMimeType : list string -> string -> bool.
Variable getFile : string -> option Node.
Variable props : Props.

(** Getter of the [currentPath] computed. *)
Definition currentPath (s : State) : string :=
  match currentView s with
  | Files =>
      Js.or_else (navigatedPath s) (Js.or_else (path props) (savedPath s))
  | Favorites | Recent => "/"
  end.

(** Setter of the [currentPath] computed. *)
Definition set_currentPath (newPath : string) (s : State) : State :=
  let s :=
    match path props with
    | None => setItem LastPath newPath s
    | Some _ => s
    end in
  let s := set_navigatedPath newPath s in
  set_selectedFiles [] s.

(** [viewHeadline]; the translated names are the message ids. *)
Definition viewHeadline (s : State) : string :=
  match currentView s with
  | Favorites => "Favorites"
  | Recent => "Recent"
  | Files => ""
  end.

(** The four predicates of [filteredFiles]. *)
Definition not_hidden (f : Node) : bool :=
  negb (Js.startsWith "." (Node.basename f)).

Definition folder_or_supported (f : Node) : bool :=
  FileType_eqb (Node.type f) folder ||
  match Node.mime f with
  | Some m => Js.truthy m && isSupportedMimeType (mimetypeFilter props) m
  | None => false
  end.

Definition matches_filterString (q : string) (f : Node) : bool :=
  Js.includes (toLowerCase q) (toLowerCase (Node.basename f)).

(** The [filteredFiles] computed. *)
Definition filteredFiles (s : State) : list Node :=
  let filtered := files s in
  let filtered :=
    if negb (showHiddenFiles s)
    then List.filter not_hidden filtered
    else filtered in
  let filtered :=
    if Nat.ltb 0 (length (mimetypeFilter props))
    then List.filter folder_or_supported filtered
    else filtered in
  let filtered :=
    if Js.truthy (filterString s)
    then List.filter (matches_filterString (filterString s)) filtered
    else filtered in
  let filtered :=
    match filterFn props with
    | Some fn => List.filter fn filtered
    | None => filtered
    end in
  filtered.

(** The buttons [dialogButtons] maps over. *)
Definition currentButtons (s : State) : list IFilePickerButton :=
  match buttons props with
  | ButtonFactory f => f (selectedFiles s) (currentPath s) (currentView s)
  | ButtonList l => l
  end.

(** The callback [dialogButtons] wraps around a button. When [getFile]
    rejects, the wrapper rejects before it calls the button and emits
    nothing. *)
Definition wrapped_callback (button : IFilePickerButton) (s : State)
    : State :=
  let nodes :=
    if Nat.eqb (length (selectedFiles s)) 0 && allowPickDirectory props
    then match getFile (currentPath s) with
         | Some dir => Some [dir]
         | None => None
         end
    else Some (selectedFiles s) in
  match nodes with
  | Some nodes => emit_close (Some nodes) (call_button button nodes s)
  | None => s
  end.

(** The [dialogButtons] computed: every button with its wrapped
    callback. *)
Definition dialogButtons (s : State)
    : list (IFilePickerButton * (State -> State)) :=
  map (fun button => (button, wrapped_callback button)) (currentButtons s).

(** The [dialogProps] computed. *)
Definition dialogProps (s : State) : DialogProps :=
  {| dialog_container := container props;
     dialog_name := name props;
     dialog_buttons := dialogButtons s;
     dialog_size := "large";
     contentClasses := ["file-picker__content"];
     dialogClasses := ["file-picker"];
     navigationClasses := ["file-picker__navigation"] |}.

(** [onCreateFolder(name)]. [created] tells whether
    [client.createDirectory] succeeded and [reloaded] is the listing
    [loadFiles] stored in [files] ([None] when it failed, in which case
    [files] is taken to keep its value). *)
Definition onCreateFolder (name : string) (created : bool)
    (reloaded : option (list Node)) (s : State) : State :=
  let catch :=
    showError "Could not create the new folder"
      (console_warn "Could not create new folder" s) in
  if created then
    match reloaded with
    | Some listing =>
        let s := set_files listing s in
        emitOnEventBus "files:node:created"
          (head (List.filter
                   (fun file => String.eqb (Node.basename file) name)
                   (files s)))
          s
    | None => catch
    end
  else catch.

(** [handleClose(open)] *)
Definition handleClose (open : bool) (s : State) : State :=
  if negb open then emit_close None s else s.

(** *** What can happen to a mounted picker *)

Inductive Event :=
| BreadcrumbsPath (p : string)
  (** [update:path] of the breadcrumbs: [currentPath = p] *)
| FileListPath (p : string)
  (** [update:path] of the file list: [currentPath = p] and
      [currentView = 'files'] *)
| NavigationView (v : View)
  (** [update:current-view] of the navigation *)
| NavigationFilter (t : string)
  (** [update:filter-string] of the navigation *)
| FileListSelected (l : list Node)
  (** [update:selected-files] of the file list *)
| FilesLoaded (l : list Node)
  (** useDAVFiles stored a listing *)
| SettingsLoaded (b : bool)
  (** useFilesSettings stored [show_hidden] *)
| Click (i : nat)
  (** the [i]-th dialog button was clicked *)
| UpdateOpen (open : bool)
  (** [update:open] of the dialog *)
| CreateFolder (name : string) (created : bool)
    (reloaded : option (list Node))
  (** [create-node] of the breadcrumbs, with what the remote calls did *).

Definition step (s : State) (e : Event) : State :=
  match e with
  | BreadcrumbsPath p => set_currentPath p s
  | FileListPath p => set_currentView Files (set_currentPath p s)
  | NavigationView v => set_currentView v s
  | NavigationFilter t => set_filterString t s
  | FileListSelected l => set_selectedFiles l s
  | FilesLoaded l => set_files l s
  | SettingsLoaded b => set_showHiddenFiles b s
  | Click i =>
      match nth_error (dialogButtons s) i with
      | Some (_, cb) => cb s
      | None => s
      end
  | UpdateOpen open => handleClose open s
  | CreateFolder name created reloaded =>
      onCreateFolder name created reloaded s
  end.

Definition run (s : State) (es : list Event) : State :=
  fold_left step es s.

End Script.

End FilePickerVue.

(** ** The FilePicker class (filepicker.ts) *)

(** [class FilePickerClosed extends Error], with its message. *)
Inductive FilePickerClosed := MkFilePickerClosed (message : string).

Module FilePicker.

Record t := {
  title : string;
  multiSelect : bool;
  mimeTypeFilter : list string;
  directoriesAllowed : bool;
  buttons : Buttons;
  path : option string;
  filter : option IFilePickerFilter;
  container : option string;
}.

(** The constructor; [path], [filter] and [container] are optional
    parameters. *)
Definition new (title : string) (multiSelect : bool)
    (mimeTypeFilter : list string) (directoriesAllowed : bool)
    (buttons : Buttons) (path : option string)
    (filter : option IFilePickerFilter) (container : option string) : t :=
  {| title := title;
     multiSelect := multiSelect;
     mimeTypeFilter := mimeTypeFilter;
     directoriesAllowed := directoriesAllowed;
     path := path;
     filter := filter;
     buttons := buttons;
     container := container |}.

(** The props [pick] hands to [spawnDialog]. *)
Definition dialog_props (this : t) : FilePickerVue.RawProps :=
  {| FilePickerVue.raw_allowPickDirectory := Some (directoriesAllowed this);
     FilePickerVue.raw_buttons := buttons this;
     FilePickerVue.raw_container := container this;
     FilePickerVue.raw_name := title this;
     FilePickerVue.raw_path := path this;
     FilePickerVue.raw_mimetypeFilter := Some (mimeTypeFilter this);
     FilePickerVue.raw_multiselect := Some (multiSelect this);
     FilePickerVue.raw_filterFn := filter this |}.

(** What [pick] resolves to: [string[]] or [string]. *)
Inductive Picked :=
| PathList (paths : list string)
| SinglePath (p : string).

(** The promise [pick] returns. *)
Inductive Promise :=
| Pending
| Resolved (v : Picked)
| Rejected (e : FilePickerClosed).

(** [resolve] and [reject] of a promise: only a pending promise is
    settled. *)
Definition resolve (v : Picked) (p : Promise) : Promise :=
  match p with
  | Pending => Resolved v
  | _ => p
  end.

Definition reject (e : FilePickerClosed) (p : Promise) : Promise :=
  match p with
  | Pending => Rejected e
  | _ => p
  end.

(** The callback [pick] hands to [spawnDialog]; [nodes] is the first
    argument of the [close] event, [None] when there is none. *)
Definition onClose (this : t) (nodes : option (list Node)) (p : Promise)
    : Promise :=
  match nodes with
  | None | Some [] =>
      reject (MkFilePickerClosed "FilePicker: No nodes selected") p
  | Some ((first :: _) as nodes) =>
      if multiSelect this
      then resolve (PathList (map Node.path nodes)) p
      else resolve (SinglePath (Js.or_else (Some (Node.path first)) "/")) p
  end.

(** The error [pick] rejects with. *)
Definition no_nodes_selected : FilePickerClosed :=
  MkFilePickerClosed "FilePicker: No nodes selected".

(** What a [close] event with the argument [nodes] stands for: a rejection
    when there are no nodes, the paths of the nodes otherwise. *)
Definition outcome (this : t) (nodes : option (list Node)) : Promise :=
  match nodes with
  | None | Some [] => Rejected no_nodes_selected
  | Some (first :: rest) =>
      Resolved
        (if multiSelect this
         then PathList (map Node.path (first :: rest))
         else SinglePath (Js.or_else (Some (Node.path first)) "/"))
  end.

(** The promise after the dialog emitted the [close] events [closes]. *)
Definition settle (this : t) (closes : list (option (list Node)))
    : Promise :=
  fold_left (fun p nodes => onClose this nodes p) closes Pending.

Section Pick.

Variable getFile : string -> option Node.

(** The component [pick] spawns, after the events [es]. *)
Definition dialog (this : t) (storage : gmap string string)
    (es : list (FilePickerVue.Event)) : FilePickerVue.State :=
  FilePickerVue.run getFile
    (FilePickerVue.withDefaults (dialog_props this))
    (FilePickerVue.setup storage) es.

(** [pick()], observed after the events [es] of its dialog. *)
Definition pick (this : t) (storage : gmap string string)
    (es : list (FilePickerVue.Event)) : Promise :=
  settle this (FilePickerVue.closed (dialog this storage es)).

End Pick.

End FilePicker.

(** ** The builder (filepicker.ts) *)

Module FilePickerBuilder.

Record t := {
  title : string;
  multiSelect : bool;
  mimeTypeFilter : list string;
  directoriesAllowed : bool;
  path : option string;
  filter : option IFilePickerFilter;
  buttons : Buttons;
  container : option string;
}.

Definition new (title : string) : t :=
  {| title := title;
     multiSelect := false;
     mimeTypeFilter := [];
     directoriesAllowed := false;
     path := None;
     filter := None;
     buttons := ButtonList [];
     container := None |}.

Definition set_buttons (b : Buttons) (this : t) : t :=
  {| title := title this; multiSelect := multiSelect this;
     mimeTypeFilter := mimeTypeFilter this;
     directoriesAllowed := directoriesAllowed this;
     path := path this; filter := filter this;
     buttons := b; container := container this |}.

Definition setContainer (c : string) (this : t) : t :=
  {| title := title this; multiSelect := multiSelect this;
     mimeTypeFilter := mimeTypeFilter this;
     directoriesAllowed := directoriesAllowed this;
     path := path this; filter := filter this;
     buttons := buttons this; container := Some c |}.

Definition setMultiSelect (ms : bool) (this : t) : t :=
  {| title := title this; multiSelect := ms;
     mimeTypeFilter := mimeTypeFilter this;
     directoriesAllowed := directoriesAllowed this;
     path := path this; filter := filter this;
     buttons := buttons this; container := container this |}.

Definition setMimeTypeFilter (l : list string) (this : t) : t :=
  {| title := title this; multiSelect := multiSelect this;
     mimeTypeFilter := l;
     directoriesAllowed := directoriesAllowed this;
     path := path this; filter := filter this;
     buttons := buttons this; container := container this |}.

Definition addMimeTypeFilter (f : string) (this : t) : t :=
  setMimeTypeFilter (mimeTypeFilter this ++ [f]) this.

Definition allowDirectories (allow : bool) (this : t) : t :=
  {| title := title this; multiSelect := multiSelect this;
     mimeTypeFilter := mimeTypeFilter this;
     directoriesAllowed := allow;
     path := path this; filter := filter this;
     buttons := buttons this; container := container this |}.

Definition startAt (p : string) (this : t) : t :=
  {| title := title this; multiSelect := multiSelect this;
     mimeTypeFilter := mimeTypeFilter this;
     directoriesAllowed := directoriesAllowed this;
     path := Some p; filter := filter this;
     buttons := buttons this; container := container this |}.

Definition setFilter (f : IFilePickerFilter) (this : t) : t :=
  {| title := title this; multiSelect := multiSelect this;
     mimeTypeFilter := mimeTypeFilter this;
     directoriesAllowed := directoriesAllowed this;
     path := path this; filter := Some f;
     buttons := buttons this; container := container this |}.

(** The two methods that set the buttons return the builder together with
    what they wrote to the console ([console.warn]). *)
Definition addButton (button : IFilePickerButton) (this : t)
    : t * list string :=
  let '(this, warned) :=
    if is_function (buttons this)
    then (set_buttons (ButtonList []) this,
          ["FilePicker buttons were set to factory, now overwritten with button object."])
    else (this, []) in
  match buttons this with
  | ButtonList l => (set_buttons (ButtonList (l ++ [button])) this, warned)
  | ButtonFactory _ => (this, warned)
  end.

Definition setButtonFactory (factory : IFilePickerButtonFactory) (this : t)
    : t * list string :=
  (set_buttons (ButtonFactory factory) this, []).

(** [build()]: the constructor is called with seven arguments, so its
    eighth parameter, [container], is [undefined]. *)
Definition build (this : t) : FilePicker.t :=
  FilePicker.new (title this) (multiSelect this) (mimeTypeFilter this)
    (directoriesAllowed this) (buttons this) (path this) (filter this)
    None.

(** A chain of calls on a builder, with the console it leaves behind. The
    deprecated [setType], which stores a factory that reads the builder when
    it is called, is not among the calls; its factory is [setType_factory]
    below. *)
Inductive Call :=
| SetContainer (c : string)
| SetMultiSelect (ms : bool)
| AddMimeTypeFilter (f : string)
| SetMimeTypeFilter (l : list string)
| AddButton (button : IFilePickerButton)
| SetButtonFactory (factory : IFilePickerButtonFactory)
| AllowDirectories (allow : bool)
| StartAt (p : string)
| SetFilter (f : IFilePickerFilter).

Definition call (bc : t * list string) (c : Call) : t * list string :=
  let '(this, console) := bc in
  match c with
  | SetContainer c => (setContainer c this, console)
  | SetMultiSelect ms => (setMultiSelect ms this, console)
  | AddMimeTypeFilter f => (addMimeTypeFilter f this, console)
  | SetMimeTypeFilter l => (setMimeTypeFilter l this, console)
  | AddButton button =>
      let '(this, w) := addButton button this in (this, console ++ w)
  | SetButtonFactory factory =>
      let '(this, w) := setButtonFactory factory this in (this, console ++ w)
  | AllowDirectories allow => (allowDirectories allow this, console)
  | StartAt p => (startAt p this, console)
  | SetFilter f => (setFilter f this, console)
  end.

Definition chain (title : string) (cs : list Call) : t * list string :=
  fold_left call cs (new title, []).

End FilePickerBuilder.

(** [getFilePickerBuilder(title)] *)
Definition getFilePickerBuilder (title : string) : FilePickerBuilder.t :=
  FilePickerBuilder.new title.

(** ** What the sources leave out *)

(** Modelled from the spec: [isSupportedMimeType] of the useMimeFilter
    composable (composables/mime), which is not among the sources. A mime
    type is supported when it matches a pattern of the allow-list; it matches
    a pattern when it is equal to it, or, for a pattern that ends in [/*],
    when it starts with the pattern up to and including the slash. *)
Definition mime_matches (pattern mime : string) : bool :=
  String.eqb pattern mime ||
  (Js.endsWith "/*" pattern &&
   Js.startsWith (String.substring 0 (String.length pattern - 1) pattern) mime).

Definition spec_isSupportedMimeType (allowed : list string) (mime : string)
    : bool :=
  existsb (fun pattern => mime_matches pattern mime) allowed.

(** [toLowerCase] on the letters A to Z; every other character is kept. *)
Definition ascii_toLowerCase (c : ascii) : ascii :=
  let n := nat_of_ascii c in
  if Nat.leb 65 n && Nat.leb n 90 then ascii_of_nat (n + 32) else c.

Fixpoint ascii_lower (s : string) : string :=
  match s with
  | EmptyString => EmptyString
  | String c rest => String (ascii_toLowerCase c) (ascii_lower rest)
  end.

(** ** The filter pipeline as the specification words it *)

Module Spec.

Record FilterCriteria := {
  showHidden : bool;
  mimeAllowList : list string;
  query : string;
  predicate : option (Node -> bool);
}.

Section Pipeline.

Variable toLowerCase : string -> string.
Variable matchesPattern : list string -> string -> bool.
Variable c : FilterCriteria.

Definition is_folder (e : Node) : bool :=
  match Node.type e with
  | folder => true
  | file => false
  end.

Definition hidden (e : Node) : bool :=
  match Node.basename e with
  | String "." _ => true
  | _ => false
  end.

(** The mime type of the entry matches a pattern of the allow-list. *)
Definition mime_allowed (e : Node) : bool :=
  match Node.mime e with
  | Some m => if String.eqb m "" then false
              else matchesPattern (mimeAllowList c) m
  | None => false
  end.

Definition contains_query (e : Node) : bool :=
  Js.includes (toLowerCase (query c)) (toLowerCase (Node.basename e)).

(** 1. If [showHidden] is false, drop entries whose basename starts
    with a dot. *)
Definition drop_hidden (es : list Node) : list Node :=
  if showHidden c then es
  else List.filter (fun e => negb (hidden e)) es.

(** 2. If the allow-list is non-empty, drop entries that are not folders
    and whose mime type matches no pattern. *)
Definition drop_unsupported (es : list Node) : list Node :=
  match mimeAllowList c with
  | [] => es
  | _ :: _ =>
      List.filter (fun e => negb (negb (is_folder e) && negb (mime_allowed e)))
        es
  end.

(** 3. If the query is non-empty, keep the entries whose basename
    contains it, case-insensitively. *)
Definition keep_matching (es : list Node) : list Node :=
  if String.eqb (query c) "" then es
  else List.filter contains_query es.

(** 4. If a predicate is supplied, keep the entries it accepts. *)
Definition keep_accepted (es : list Node) : list Node :=
  match predicate c with
  | Some accepts => List.filter accepts es
  | None => es
  end.

Definition apply (es : list Node) : list Node :=
  keep_accepted (keep_matching (drop_unsupported (drop_hidden es))).

(** The four conditions on one entry, taken together. *)
Definition visible (e : Node) : bool :=
  (showHidden c || negb (hidden e)) &&
  (match mimeAllowList c with
   | [] => true
   | _ :: _ => is_folder e || mime_allowed e
   end) &&
  (String.eqb (query c) "" || contains_query e) &&
  (match predicate c with
   | Some accepts => accepts e
   | None => true
   end).

End Pipeline.

End Spec.

(** The criteria a mounted picker filters by. *)
Definition criteria (props : FilePickerVue.Props) (s : FilePickerVue.State)
    : Spec.FilterCriteria :=
  {| Spec.showHidden := FilePickerVue.showHiddenFiles s;
     Spec.mimeAllowList := FilePickerVue.mimetypeFilter props;
     Spec.query := FilePickerVue.filterString s;
     Spec.predicate := FilePickerVue.filterFn props |}.

(** ** Entries and pickers of the scenarios *)

Module Scenario.

Definition dot_git : Node :=
  {| Node.basename := ".git"; Node.path := "/.git";
     Node.type := folder; Node.mime := Some "httpd/unix-directory" |}.

Definition readme_md : Node :=
  {| Node.basename := "readme.md"; Node.path := "/readme.md";
     Node.type := file; Node.mime := Some "text/plain" |}.

Definition photo_png : Node :=
  {| Node.basename := "photo.png"; Node.path := "/photo.png";
     Node.type := file; Node.mime := Some "image/png" |}.

Definition listing : list Node := [dot_git; readme_md; photo_png].

Definition choose : IFilePickerButton :=
  {| label := "Choose"; btype := primary; icon := None; callback := 1 |}.

(** A factory that names the target in the label of its one button. *)
Definition move_factory : IFilePickerButtonFactory :=
  fun _ target _ =>
    [{| label := "Move to " ++ target; btype := primary; icon := None;
        callback := 3 |}].

(** A picker for images. *)
Definition image_picker : FilePicker.t :=
  FilePickerBuilder.build
    (FilePickerBuilder.setMimeTypeFilter ["image/*"]
       (FilePickerBuilder.new "Pick an image")).

(** A single-select picker of files with one button. *)
Definition file_picker : FilePicker.t :=
  FilePickerBuilder.build
    (fst (FilePickerBuilder.addButton choose
            (FilePickerBuilder.new "Pick a file"))).

(** A single-select picker that may pick directories. *)
Definition directory_picker : FilePicker.t :=
  FilePickerBuilder.build
    (FilePickerBuilder.allowDirectories true
       (fst (FilePickerBuilder.addButton choose
               (FilePickerBuilder.new "Pick a folder")))).

(** A picker that starts at a path of the caller. *)
Definition documents_picker : FilePicker.t :=
  FilePickerBuilder.build
    (FilePickerBuilder.startAt "/Documents"
       (fst (FilePickerBuilder.addButton choose
               (FilePickerBuilder.new "Pick a document")))).

(** A remote store in which every path is a folder. *)
Definition folder_at (p : string) : option Node :=
  Some {| Node.basename := p; Node.path := p; Node.type := folder;
          Node.mime := Some "httpd/unix-directory" |}.

(** A remote store that fails every lookup. *)
Definition unreachable (p : string) : option Node := None.

End Scenario.

(** ** The legacy picker types (filepicker.ts) *)

(** [enum FilePickerType] *)
Inductive FilePickerType := Choose | Move | Copy | CopyMove | Custom.

Definition FilePickerType_eqb (a b : FilePickerType) : bool :=
  match a, b with
  | Choose, Choose | Move, Move | Copy, Copy | CopyMove, CopyMove
  | Custom, Custom => true
  | _, _ => false
  end.

(** The callbacks of the buttons of [setType] are [() => {}]; they share
    one identifier. *)
Definition noop : nat := 0.

(** The factory [setType(type)] stores in the builder. It reads
    [this.multiSelect] of the builder when it is called, which is the
    argument [multiSelect] here. The translation functions [t] and [n] of
    utils/l10n, [basename] of the path module, the [displayName] attribute of
    a node and the two icons are defined outside of the file. *)
Section SetType.

Variable t : string -> list (string * string) -> string.
Variable n : string -> string -> nat -> string.
Variable path_basename : string -> string.
Variable displayName : Node -> option string.
Variable IconMove IconCopy : string.

Definition setType_factory (multiSelect : bool) (type : FilePickerType)
    (nodes : list Node) (path : string) : list IFilePickerButton :=
  let buttons := [] in
  let node :=
    match nodes with
    | first :: _ => Some (Js.or_else (displayName first) (Node.basename first))
    | [] => None
    end in
  let target := Js.or_else node (path_basename path) in
  let buttons :=
    if FilePickerType_eqb type Choose then
      let label :=
        if Nat.eqb (length nodes) 1
        then t "Choose {file}" [("file", default "" node)]
        else if multiSelect
             then n "Choose %n file" "Choose %n files" (length nodes)
             else t "Choose" [] in
      buttons ++ [{| callback := noop; btype := primary; label := label;
                     icon := None |}]
    else buttons in
  let buttons :=
    if FilePickerType_eqb type CopyMove || FilePickerType_eqb type Copy then
      buttons ++
      [{| callback := noop;
          label := if Js.truthy target
                   then t "Copy to {target}" [("target", target)]
                   else t "Copy" [];
          btype := primary;
          icon := Some IconCopy |}]
    else buttons in
  let buttons :=
    if FilePickerType_eqb type Move || FilePickerType_eqb type CopyMove then
      buttons ++
      [{| callback := noop;
          label := if Js.truthy target
                   then t "Move to {target}" [("target", target)]
                   else t "Move" [];
          btype := if FilePickerType_eqb type Move then primary else secondary;
          icon := Some IconMove |}]
    else buttons in
  buttons.

End SetType.

(** ** Kinds of events and of builder calls *)

(** The warning of [addButton]. *)
Definition factory_overwritten : string :=
  "FilePicker buttons were set to factory, now overwritten with button object.".

(** The events that assign to [selectedFiles]. *)
Definition assigns_selection (e : FilePickerVue.Event) : bool :=
  match e with
  | FilePickerVue.BreadcrumbsPath _ | FilePickerVue.FileListPath _
  | FilePickerVue.FileListSelected _ => true
  | _ => false
  end.

(** The events that assign to [currentPath]. *)
Definition is_path_update (e : FilePickerVue.Event) : bool :=
  match e with
  | FilePickerVue.BreadcrumbsPath _ | FilePickerVue.FileListPath _ => true
  | _ => false
  end.

(** The events that can emit [close]. *)
Definition may_close (e : FilePickerVue.Event) : bool :=
  match e with
  | FilePickerVue.Click _ | FilePickerVue.UpdateOpen _ => true
  | _ => false
  end.

(** A [close] event that carries nodes, and at least one. *)
Definition carries_nodes (c : option (list Node)) : Prop :=
  exists first rest, c = Some (first :: rest).

(** [update:open] with [false]: the dialog was closed by the user. *)
Definition is_dismissal (e : FilePickerVue.Event) : bool :=
  match e with
  | FilePickerVue.UpdateOpen open => negb open
  | _ => false
  end.

Definition is_SettingsLoaded (e : FilePickerVue.Event) : bool :=
  match e with
  | FilePickerVue.SettingsLoaded _ => true
  | _ => false
  end.

Definition is_SetButtonFactory (c : FilePickerBuilder.Call) : bool :=
  match c with
  | FilePickerBuilder.SetButtonFactory _ => true
  | _ => false
  end.

Definition is_SetMultiSelect (c : FilePickerBuilder.Call) : bool :=
  match c with
  | FilePickerBuilder.SetMultiSelect _ => true
  | _ => false
  end.

(** The buttons of the [addButton] calls of a chain, in the order of the
    calls. *)
Fixpoint added_buttons (cs : list FilePickerBuilder.Call)
    : list IFilePickerButton :=
  match cs with
  | [] => []
  | FilePickerBuilder.AddButton button :: cs => button :: added_buttons cs
  | _ :: cs => added_buttons cs
  end.

(** The number of buttons of a kind in a list of buttons. *)
Definition count_btype (k : ButtonType) (l : list IFilePickerButton) : nat :=
  length (List.filter
            (fun b => match btype b, k with
                      | primary, primary | secondary, secondary => true
                      | _, _ => false
                      end) l).

(** Two folders of the same name in one listing, and a file without a mime
    type. *)
Module Scenario2.

Definition music : Node :=
  {| Node.basename := "Music"; Node.path := "/Music";
     Node.type := folder; Node.mime := Some "httpd/unix-directory" |}.

Definition music_again : Node :=
  {| Node.basename := "Music"; Node.path := "/Shared/Music";
     Node.type := folder; Node.mime := Some "httpd/unix-directory" |}.

Definition dot_env : Node :=
  {| Node.basename := ".env"; Node.path := "/.env";
     Node.type := file; Node.mime := None |}.

Definition notes : Node :=
  {| Node.basename := "notes"; Node.path := "/notes";
     Node.type := file; Node.mime := None |}.

Definition other : IFilePickerButton :=
  {| label := "Other"; btype := secondary; icon := None; callback := 4 |}.

(** A multi-select picker with one button. *)
Definition multi_picker : FilePicker.t :=
  FilePickerBuilder.build
    (FilePickerBuilder.setMultiSelect true
       (fst (FilePickerBuilder.addButton Scenario.choose
               (FilePickerBuilder.new "Pick files")))).

End Scenario2.

(** ** Clicks that wait for the look-up *)

(** The callback [dialogButtons] wraps around a button is an async function.
    With a selection, or in a picker that may not pick directories, it runs
    to its end within the click. With nothing selected in a picker that may
    pick directories it calls [getFile(currentPath.value)] and is suspended at
    the [await]; anything can happen to the component before the look-up
    returns and the wrapper goes on to call the button and to emit [close].
    A callback of the caller may also throw, in which case the [emit] after
    it is not reached. [FilePickerVue.wrapped_callback] leaves both out; here
    they are kept. *)
Module Async.

(** A mounted picker and the wrappers that wait for their look-up, oldest
    first, each with its button and the path it looks up. *)
Record Dialog := {
  picker : FilePickerVue.State;
  awaiting : list (IFilePickerButton * string);
}.

(** What can happen: an event of the component, where a click runs the
    wrapper up to its [await] or, without one, to its end; or the promise of
    [getFile] of the [k]-th waiting wrapper settles, with a node or with a
    rejection. *)
Inductive Event :=
| Component (e : FilePickerVue.Event)
| Returned (k : nat) (result : option Node).

Definition is_dismissal (e : Event) : bool :=
  match e with
  | Component (FilePickerVue.UpdateOpen open) => negb open
  | _ => false
  end.

Section Script.

Variable props : FilePickerVue.Props.

(** [throws id nodes]: the callback [id] of the caller throws when it is
    called with [nodes]. *)
Variable throws : nat -> list Node -> bool.

(** [button.callback(nodes)] and then [emit('close', nodes)]. *)
Definition finish (button : IFilePickerButton) (nodes : list Node)
    (s : FilePickerVue.State) : FilePickerVue.State :=
  let s := FilePickerVue.call_button button nodes s in
  if throws (callback button) nodes then s
  else FilePickerVue.emit_close (Some nodes) s.

(** A click on the [i]-th dialog button. *)
Definition click (i : nat) (d : Dialog) : Dialog :=
  let s := picker d in
  match nth_error (FilePickerVue.currentButtons props s) i with
  | Some button =>
      if Nat.eqb (length (FilePickerVue.selectedFiles s)) 0 &&
         FilePickerVue.allowPickDirectory props
      then {| picker := s;
              awaiting := awaiting d ++
                          [(button, FilePickerVue.currentPath props s)] |}
      else {| picker := finish button (FilePickerVue.selectedFiles s) s;
              awaiting := awaiting d |}
  | None => d
  end.

(** The look-up of the [k]-th waiting wrapper returns. *)
Definition returned (k : nat) (result : option Node) (d : Dialog) : Dialog :=
  match nth_error (awaiting d) k with
  | Some (button, _) =>
      {| picker := match result with
                   | Some dir => finish button [dir] (picker d)
                   | None => picker d
                   end;
         awaiting := firstn k (awaiting d) ++ skipn (S k) (awaiting d) |}
  | None => d
  end.

Definition step (d : Dialog) (e : Event) : Dialog :=
  match e with
  | Component (FilePickerVue.Click i) => click i d
  | Component e =>
      {| picker := FilePickerVue.step (fun _ => None) props (picker d) e;
         awaiting := awaiting d |}
  | Returned k result => returned k result d
  end.

Definition run (d : Dialog) (es : list Event) : Dialog :=
  fold_left step es d.

End Script.

(** The dialog [pick] spawns, after the events [es], and its promise. *)
Definition dialog (throws : nat -> list Node -> bool) (this : FilePicker.t)
    (storage : gmap string string) (es : list Event) : Dialog :=
  run (FilePickerVue.withDefaults (FilePicker.dialog_props this)) throws
    {| picker := FilePickerVue.setup storage; awaiting := [] |} es.

Definition pick (throws : nat -> list Node -> bool) (this : FilePicker.t)
    (storage : gmap string string) (es : list Event) : FilePicker.Promise :=
  FilePicker.settle this (FilePickerVue.closed (picker (dialog throws this storage es))).

(** Callbacks that return. *)
Definition returns : nat -> list Node -> bool := fun _ _ => false.

(** A callback that throws whatever it is called with. *)
Definition always_throws : nat -> list Node -> bool := fun _ _ => true.

End Async.

(** The folder the second scenario navigates to. *)
Definition documents : Node :=
  {| Node.basename := "Documents"; Node.path := "/Documents";
     Node.type := folder; Node.mime := Some "httpd/unix-directory" |}.

(** * Properties *)

(** ** JavaScript strings *)

Module JsFacts.

Import Js.

Lemma truthy_true (s : string) : truthy s = true <-> s <> "".
Proof. destruct s; simpl; split; intros H; congruence. Qed.

Lemma or_else_None (d : string) : or_else None d = d.
Proof. reflexivity. Qed.

Lemma or_else_truthy (s d : string) : s <> "" -> or_else (Some s) d = s.
Proof. intros H. unfold or_else. apply truthy_true in H. now rewrite H. Qed.

Lemma prefix_app (p s : string) : String.prefix p (p ++ s)%string = true.
Proof.
  induction p as [|c p IH]; simpl.
  - now destruct s.
  - destruct (Ascii.ascii_dec c c); [exact IH | congruence].
Qed.

Lemma prefix_split (p s : string) :
  String.prefix p s = true -> exists post, s = (p ++ post)%string.
Proof.
  revert s. induction p as [|c p IH]; intros s H.
  - exists s. reflexivity.
  - destruct s as [|d s]; simpl in H; [discriminate|].
    destruct (Ascii.ascii_dec c d) as [->|]; [|discriminate].
    destruct (IH s H) as [post ->]. exists post. reflexivity.
Qed.

(** [includes] is literal substring search. *)
Lemma includes_spec (needle hay : string) :
  includes needle hay = true <->
  exists pre post, hay = (pre ++ needle ++ post)%string.
Proof.
  split.
  - induction hay as [|c hay IH]; cbn [includes]; intros H.
    + apply orb_true_iff in H as [H|H]; [|discriminate].
      apply prefix_split in H as [post Hp]. exists "", post. exact Hp.
    + apply orb_true_iff in H as [H|H].
      * apply prefix_split in H as [post Hp]. exists "", post. exact Hp.
      * destruct (IH H) as (pre & post & ->).
        exists (String c pre), post. reflexivity.
  - intros (pre & post & ->).
    induction pre as [|c pre IH].
    + change ("" ++ needle ++ post)%string with (needle ++ post)%string.
      destruct (needle ++ post)%string eqn:E; cbn [includes];
        rewrite <- E, prefix_app; reflexivity.
    + change (String c pre ++ needle ++ post)%string
        with (String c (pre ++ needle ++ post)).
      cbn [includes]. rewrite IH. apply orb_true_r.
Qed.

End JsFacts.

(** ** The filter pipeline *)

Section FilterFacts.

Variable toLowerCase : string -> string.
Variable isSupportedMimeType : list string -> string -> bool.
Variable props : FilePickerVue.Props.

Let filteredFiles := FilePickerVue.filteredFiles toLowerCase isSupportedMimeType props.

Lemma filter_filter {A} (p q : A -> bool) (l : list A) :
  List.filter q (List.filter p l) = List.filter (fun x => p x && q x) l.
Proof.
  induction l as [|x l IH]; simpl; [reflexivity|].
  destruct (p x); simpl; [|exact IH].
  destruct (q x); simpl; now rewrite IH.
Qed.

Lemma filter_true {A} (l : list A) : List.filter (fun _ => true) l = l.
Proof. induction l as [|x l IH]; simpl; [reflexivity | now rewrite IH]. Qed.

Lemma filter_twice {A} (p : A -> bool) (l : list A) :
  List.filter p (List.filter p l) = List.filter p l.
Proof.
  rewrite filter_filter. apply List.filter_ext. intros x. now destruct (p x).
Qed.

(** The predicates of the code and the conditions of the specification
    agree on every entry. *)
Lemma hidden_startsWith (e : Node) :
  Spec.hidden e = Js.startsWith "." (Node.basename e).
Proof.
  unfold Spec.hidden, Js.startsWith. destruct (Node.basename e) as [|c b].
  - reflexivity.
  - change (String.prefix "." (String c b))
      with (if Ascii.ascii_dec "." c then String.prefix "" b else false).
    destruct (Ascii.ascii_dec "." c) as [<-|Hne].
    + now destruct b.
    + destruct c as [[] [] [] [] [] [] [] []]; try reflexivity.
      now contradiction Hne.
Qed.

Lemma is_folder_eqb (e : Node) :
  Spec.is_folder e = FileType_eqb (Node.type e) folder.
Proof. unfold Spec.is_folder. now destruct (Node.type e). Qed.

Lemma truthy_eqb (s : string) : Js.truthy s = negb (String.eqb s "").
Proof. now destruct s. Qed.

Lemma mime_allowed_supported (s : FilePickerVue.State) (e : Node) :
  Spec.is_folder e ||
    Spec.mime_allowed isSupportedMimeType (criteria props s) e =
  FilePickerVue.folder_or_supported isSupportedMimeType props e.
Proof.
  unfold FilePickerVue.folder_or_supported, Spec.mime_allowed.
  rewrite is_folder_eqb. f_equal. simpl.
  destruct (Node.mime e) as [m|]; [|reflexivity].
  rewrite truthy_eqb. now destruct (String.eqb m "").
Qed.

(** Every stage of the code is the stage of the specification. *)
Lemma stage_hidden (s : FilePickerVue.State) (l : list Node) :
  (if negb (FilePickerVue.showHiddenFiles s)
   then List.filter FilePickerVue.not_hidden l else l) =
  Spec.drop_hidden (criteria props s) l.
Proof.
  unfold Spec.drop_hidden. simpl.
  destruct (FilePickerVue.showHiddenFiles s); [reflexivity|]. simpl.
  apply List.filter_ext. intros e. unfold FilePickerVue.not_hidden.
  now rewrite hidden_startsWith.
Qed.

Lemma stage_mime (s : FilePickerVue.State) (l : list Node) :
  (if Nat.ltb 0 (length (FilePickerVue.mimetypeFilter props))
   then List.filter
          (FilePickerVue.folder_or_supported isSupportedMimeType props) l
   else l) =
  Spec.drop_unsupported isSupportedMimeType (criteria props s) l.
Proof.
  unfold Spec.drop_unsupported. pose proof (mime_allowed_supported s) as Hs.
  unfold Spec.mime_allowed in *. simpl in *.
  destruct (FilePickerVue.mimetypeFilter props) eqn:E; [reflexivity|].
  simpl. apply List.filter_ext. intros e. rewrite <- Hs.
  destruct (Spec.is_folder e); [reflexivity|]. simpl.
  now rewrite negb_involutive.
Qed.

Lemma stage_query (s : FilePickerVue.State) (l : list Node) :
  (if Js.truthy (FilePickerVue.filterString s)
   then List.filter
          (FilePickerVue.matches_filterString toLowerCase
             (FilePickerVue.filterString s)) l
   else l) =
  Spec.keep_matching toLowerCase (criteria props s) l.
Proof.
  unfold Spec.keep_matching. simpl. rewrite truthy_eqb.
  now destruct (String.eqb (FilePickerVue.filterString s) "").
Qed.

Lemma stage_filterFn (s : FilePickerVue.State) (l : list Node) :
  match FilePickerVue.filterFn props with
  | Some fn => List.filter fn l
  | None => l
  end = Spec.keep_accepted (criteria props s) l.
Proof. reflexivity. Qed.

Lemma filteredFiles_apply (s : FilePickerVue.State) :
  filteredFiles s =
  Spec.apply toLowerCase isSupportedMimeType (criteria props s)
    (FilePickerVue.files s).
Proof.
  unfold filteredFiles, FilePickerVue.filteredFiles, Spec.apply. cbv zeta.
  now rewrite (stage_hidden s), (stage_mime s), (stage_query s),
    (stage_filterFn s).
Qed.

(** The composition of the four stages is one filter by the conjunction
    of the four conditions. *)
Lemma apply_visible (c : Spec.FilterCriteria) (es : list Node) :
  Spec.apply toLowerCase isSupportedMimeType c es =
  List.filter (Spec.visible toLowerCase isSupportedMimeType c) es.
Proof.
  unfold Spec.apply, Spec.keep_accepted, Spec.keep_matching,
    Spec.drop_unsupported, Spec.drop_hidden, Spec.visible.
  destruct (Spec.showHidden c), (Spec.mimeAllowList c) as [|pat pats],
    (String.eqb (Spec.query c) ""), (Spec.predicate c) as [accepts|];
    cbn [orb]; rewrite ?filter_filter;
    try (symmetry; apply filter_true);
    apply List.filter_ext; intros e;
    repeat match goal with
           | |- context [Spec.hidden e] => destruct (Spec.hidden e)
           | |- context [Spec.is_folder e] => destruct (Spec.is_folder e)
           | |- context [Spec.mime_allowed ?f ?c e] =>
               destruct (Spec.mime_allowed f c e)
           | |- context [Spec.contains_query ?f ?c e] =>
               destruct (Spec.contains_query f c e)
           | |- context [accepts e] => destruct (accepts e)
           end; reflexivity.
Qed.

Lemma filteredFiles_visible (s : FilePickerVue.State) :
  filteredFiles s =
  List.filter (Spec.visible toLowerCase isSupportedMimeType (criteria props s))
    (FilePickerVue.files s).
Proof. rewrite filteredFiles_apply. apply apply_visible. Qed.

End FilterFacts.

(** Scenario B: with hidden files shown and no allow-list, the query
    "photo" leaves the one entry whose name contains it. *)
Example scenario_B :
  FilePickerVue.filteredFiles ascii_lower spec_isSupportedMimeType
    (FilePickerVue.withDefaults (FilePicker.dialog_props Scenario.file_picker))
    (FilePickerVue.set_filterString "Photo"
       (FilePickerVue.set_showHiddenFiles true
          (FilePickerVue.set_files Scenario.listing (FilePickerVue.setup ∅))))
  = [Scenario.photo_png].
Proof. reflexivity. Qed.

(** C2. The visible entries are computed by four filters applied in a fixed
    order, all of which an entry has to pass: (1) unless hidden files are
    shown, entries whose basename starts with a dot are dropped; (2) when the
    mime allow-list is not empty, entries that are not folders and whose mime
    type matches no pattern are dropped, and folders are kept; (3) when the
    filter string is not empty, the entries whose basename contains it,
    compared in lower case, are kept; (4) when the caller gave a predicate,
    the entries it accepts are kept. On the entries .git (folder), readme.md
    (text/plain) and photo.png (image/png), with hidden files not shown and
    the allow-list image/*, the visible entries are photo.png alone. *)
Theorem filteredFiles_four_filters :
  (forall (toLowerCase : string -> string)
          (isSupportedMimeType : list string -> string -> bool)
          (props : FilePickerVue.Props) (s : FilePickerVue.State),
     let visible := FilePickerVue.filteredFiles toLowerCase isSupportedMimeType props s in
     let c := criteria props s in
     visible =
       Spec.keep_accepted c
         (Spec.keep_matching toLowerCase c
            (Spec.drop_unsupported isSupportedMimeType c
               (Spec.drop_hidden c (FilePickerVue.files s)))) /\
     visible =
       List.filter (Spec.visible toLowerCase isSupportedMimeType c)
         (FilePickerVue.files s)) /\
  (forall toLowerCase : string -> string,
     let props := FilePickerVue.withDefaults
                    (FilePicker.dialog_props Scenario.image_picker) in
     let s := FilePickerVue.set_files Scenario.listing (FilePickerVue.setup ∅) in
     FilePickerVue.showHiddenFiles s = false /\
     FilePickerVue.mimetypeFilter props = ["image/*"] /\
     FilePickerVue.filteredFiles toLowerCase spec_isSupportedMimeType props s
       = [Scenario.photo_png]).
Proof.
  split.
  - intros toLowerCase isSupportedMimeType props s visible c. split.
    + apply filteredFiles_apply.
    + apply filteredFiles_visible.
  - intros toLowerCase. repeat split.
Qed.

(** C9. Filtering is idempotent: the visible entries of a listing that is
    itself the visible entries of a listing, under the same criteria, are
    that listing. *)
Theorem filteredFiles_idempotent
    (toLowerCase : string -> string)
    (isSupportedMimeType : list string -> string -> bool)
    (props : FilePickerVue.Props) (s : FilePickerVue.State)
    (es : list Node) :
  let apply := fun es =>
    FilePickerVue.filteredFiles toLowerCase isSupportedMimeType props
      (FilePickerVue.set_files es s) in
  apply (apply es) = apply es.
Proof.
  intros apply. unfold apply. rewrite !filteredFiles_visible.
  cbn [FilePickerVue.files FilePickerVue.set_files].
  change (criteria props (FilePickerVue.set_files _ s)) with (criteria props s).
  apply filter_twice.
Qed.

(** ** Navigation, views and the last path *)

Section NavigationFacts.

Import FilePickerVue.

Variable getFile : string -> option Node.
Variable props : Props.

Lemma run_app (s : State) (es es' : list Event) :
  run getFile props s (es ++ es') =
  run getFile props (run getFile props s es) es'.
Proof. apply fold_left_app. Qed.

Lemma run_snoc (s : State) (es : list Event) (e : Event) :
  run getFile props s (es ++ [e]) =
  step getFile props (run getFile props s es) e.
Proof. now rewrite run_app. Qed.



End NavigationFacts.

(** C4. The selection is empty right after every navigation: the setter of
    the current path empties the selected files, whatever happened before,
    be it called for the breadcrumbs or for the file list. *)
Theorem selection_empty_after_navigation
    (getFile : string -> option Node) (props : FilePickerVue.Props)
    (s : FilePickerVue.State) (es : list FilePickerVue.Event) (p : string) :
  FilePickerVue.selectedFiles (FilePickerVue.set_currentPath props p s) = [] /\
  FilePickerVue.selectedFiles
    (FilePickerVue.run getFile props s (es ++ [FilePickerVue.BreadcrumbsPath p]))
    = [] /\
  FilePickerVue.selectedFiles
    (FilePickerVue.run getFile props s (es ++ [FilePickerVue.FileListPath p]))
    = [].
Proof.
  rewrite !run_snoc. repeat split.
Qed.



(** C8, counterexample. A navigation in a picker that was given a start
    path leaves the session storage as it was: the current path is the new
    path, and the new path is not stored under the key. *)
Lemma navigation_with_start_path_not_stored :
  let props := FilePickerVue.withDefaults
                 (FilePicker.dialog_props Scenario.documents_picker) in
  let s := FilePickerVue.step Scenario.folder_at props (FilePickerVue.setup ∅)
             (FilePickerVue.BreadcrumbsPath "/Documents/Invoices") in
  FilePickerVue.currentPath props s = "/Documents/Invoices" /\
  FilePickerVue.sessionStorage s !! FilePickerVue.LastPath
    <> Some "/Documents/Invoices".
Proof.
  split; [reflexivity|]. simpl. rewrite lookup_empty. discriminate.
Qed.

(** C8, amended. The last path is stored under one fixed key of the session
    storage. It is read when the picker is set up, as the default of last
    resort. Setting the current path stores the new path under that key when
    the caller gave no start path, and leaves the storage alone when the
    caller gave one; nothing else the picker does writes to the storage. *)
Theorem last_path_stored_without_start_path
    (getFile : string -> option Node) (props : FilePickerVue.Props)
    (s : FilePickerVue.State) (storage : gmap string string) (p : string)
    (e : FilePickerVue.Event) :
  FilePickerVue.savedPath (FilePickerVue.setup storage) =
    Js.or_else (storage !! FilePickerVue.LastPath) "/" /\
  FilePickerVue.sessionStorage (FilePickerVue.set_currentPath props p s) =
    match FilePickerVue.path props with
    | None => <[FilePickerVue.LastPath := p]> (FilePickerVue.sessionStorage s)
    | Some _ => FilePickerVue.sessionStorage s
    end /\
  FilePickerVue.sessionStorage (FilePickerVue.step getFile props s e) =
    match e, FilePickerVue.path props with
    | FilePickerVue.BreadcrumbsPath p', None
    | FilePickerVue.FileListPath p', None =>
        <[FilePickerVue.LastPath := p']> (FilePickerVue.sessionStorage s)
    | _, _ => FilePickerVue.sessionStorage s
    end.
Proof.
  split; [reflexivity|]. split.
  - unfold FilePickerVue.set_currentPath.
    now destruct (FilePickerVue.path props).
  - destruct e as [p'|p'|v|t|l|l|b|i|open|name created reloaded]; simpl;
      try reflexivity; unfold FilePickerVue.set_currentPath.
    + now destruct (FilePickerVue.path props).
    + now destruct (FilePickerVue.path props).
    + destruct (nth_error _ i) as [[button cb]|] eqn:E; [|reflexivity].
      unfold FilePickerVue.dialogButtons in E.
      rewrite nth_error_map in E.
      destruct (nth_error _ i); [|discriminate].
      injection E as _ <-. unfold FilePickerVue.wrapped_callback.
      destruct (_ && _); [|reflexivity].
      now destruct (getFile _).
    + now destruct open.
    + unfold FilePickerVue.onCreateFolder.
      destruct created; [|reflexivity]. now destruct reloaded.
Qed.

(** ** The promise of [pick] *)

Section PickFacts.

Import FilePickerVue.

Variable getFile : string -> option Node.
Variable this : FilePicker.t.

Let props := withDefaults (FilePicker.dialog_props this).

Lemma onClose_pending (nodes : option (list Node)) :
  FilePicker.onClose this nodes FilePicker.Pending = FilePicker.outcome this nodes.
Proof.
  destruct nodes as [[|first rest]|]; try reflexivity.
  simpl. now destruct (FilePicker.multiSelect this).
Qed.

Lemma onClose_settled (nodes : option (list Node)) (p : FilePicker.Promise) :
  p <> FilePicker.Pending -> FilePicker.onClose this nodes p = p.
Proof.
  intros Hp. destruct p; [congruence| |];
    destruct nodes as [[|first rest]|]; simpl; try reflexivity;
    now destruct (FilePicker.multiSelect this).
Qed.

Lemma outcome_settled (nodes : option (list Node)) :
  FilePicker.outcome this nodes <> FilePicker.Pending.
Proof. destruct nodes as [[|first rest]|]; discriminate. Qed.

(** The first close event decides; later ones change nothing. *)
Lemma settle_cons (nodes : option (list Node))
    (closes : list (option (list Node))) :
  FilePicker.settle this (nodes :: closes) = FilePicker.outcome this nodes.
Proof.
  unfold FilePicker.settle. simpl. rewrite onClose_pending.
  induction closes as [|c closes IH]; simpl; [reflexivity|].
  rewrite onClose_settled; [exact IH | apply outcome_settled].
Qed.




End PickFacts.




(** ** Creating a folder *)

Section CreateFolderFacts.

Import FilePickerVue.

(** When the folder was created and the listing reloaded, the event is
    emitted with the first entry of the new listing that has the name. *)
Lemma onCreateFolder_reloaded (name : string) (listing : list Node)
    (s : State) :
  let s' := onCreateFolder name true (Some listing) s in
  files s' = listing /\
  toasts s' = toasts s /\
  eventBus s' =
    eventBus s ++
    [("files:node:created",
      head (List.filter (fun f => String.eqb (Node.basename f) name) listing))].
Proof. repeat split. Qed.

(** When the folder could not be created, an error is shown, nothing is
    emitted and the refs keep their values. *)
Lemma onCreateFolder_failed (name : string) (reloaded : option (list Node))
    (s : State) :
  let s' := onCreateFolder name false reloaded s in
  toasts s' = toasts s ++ ["Could not create the new folder"] /\
  eventBus s' = eventBus s /\
  same_refs s s'.
Proof. unfold same_refs. repeat split. Qed.

(** No entry of the listing has the name: the event is emitted all the
    same, without a node. *)
Lemma onCreateFolder_no_match (name : string) (listing : list Node)
    (s : State) :
  (forall f, In f listing -> Node.basename f <> name) ->
  eventBus (onCreateFolder name true (Some listing) s) =
  eventBus s ++ [("files:node:created", None)].
Proof.
  intros Hno. destruct (onCreateFolder_reloaded name listing s) as (_ & _ & ->).
  do 3 f_equal.
  destruct (List.filter _ listing) as [|f fs] eqn:E; [reflexivity|].
  assert (Hf : In f (List.filter
                       (fun f => String.eqb (Node.basename f) name) listing))
    by (rewrite E; now left).
  apply List.filter_In in Hf as [Hin Heq].
  apply String.eqb_eq in Heq. now destruct (Hno f Hin).
Qed.

End CreateFolderFacts.

(** C6. The folder "New Folder" is created and the listing is reloaded, but
    the reloaded listing has no entry of that name. The specification has no
    notification sent then; [onCreateFolder] sends [files:node:created] all
    the same, with [undefined] in the place of the node, and shows no
    error. *)
Theorem createFolder_without_match_still_emits :
  let s := FilePickerVue.set_files Scenario.listing (FilePickerVue.setup ∅) in
  let s' := FilePickerVue.onCreateFolder "New Folder" true
              (Some Scenario.listing) s in
  List.filter (fun f => String.eqb (Node.basename f) "New Folder")
    (FilePickerVue.files s') = [] /\
  FilePickerVue.eventBus s' = [("files:node:created", None)] /\
  FilePickerVue.toasts s' = [].
Proof. repeat split. Qed.

(** ** The builder *)

(** C7, counterexample. Static buttons are overwritten with a factory:
    the factory replaces them and nothing is written to the console. *)
Lemma setButtonFactory_after_addButton_is_silent :
  let '(builder, console) :=
    FilePickerBuilder.chain "Pick a target"
      [FilePickerBuilder.AddButton Scenario.choose;
       FilePickerBuilder.SetButtonFactory Scenario.move_factory] in
  FilePickerBuilder.buttons builder = ButtonFactory Scenario.move_factory /\
  console = [] /\
  ~ (exists warning, In warning console).
Proof.
  simpl. repeat split. intros [warning []].
Qed.

(** C7, amended. A button added to a builder that holds a button factory
    drops the factory, with a warning on the console, and the button becomes
    the only button. A factory set on a builder that holds buttons drops the
    buttons without a warning: [setButtonFactory] never writes to the
    console. Both calls return the builder, with the new buttons in the place
    of the old ones and the rest of the configuration as it was. *)
Theorem buttons_overwritten
    (this : FilePickerBuilder.t) (console : list string)
    (button : IFilePickerButton) (factory : IFilePickerButtonFactory)
    (previous : list IFilePickerButton) :
  FilePickerBuilder.call
    (FilePickerBuilder.call (this, console)
       (FilePickerBuilder.SetButtonFactory factory))
    (FilePickerBuilder.AddButton button) =
    (FilePickerBuilder.set_buttons (ButtonList [button]) this,
     console ++
     ["FilePicker buttons were set to factory, now overwritten with button object."]) /\
  FilePickerBuilder.call
    (FilePickerBuilder.set_buttons (ButtonList previous) this, console)
    (FilePickerBuilder.SetButtonFactory factory) =
    (FilePickerBuilder.set_buttons (ButtonFactory factory) this, console) /\
  FilePickerBuilder.call
    (FilePickerBuilder.call
       (FilePickerBuilder.set_buttons (ButtonList previous) this, console)
       (FilePickerBuilder.AddButton button))
    (FilePickerBuilder.SetButtonFactory factory) =
    (FilePickerBuilder.set_buttons (ButtonFactory factory) this, console) /\
  FilePickerBuilder.setButtonFactory factory this =
    (FilePickerBuilder.set_buttons (ButtonFactory factory) this, []).
Proof.
  repeat split; simpl; now rewrite ?app_nil_r.
Qed.

(** C10. A picker built by the builder has no container, also when
    [setContainer] was called on the builder: [build] does not hand the
    container of the builder to the constructor. The dialog of a built picker
    is therefore mounted at the default of the component, [body]. *)
Theorem built_picker_mounts_at_body
    (builder : FilePickerBuilder.t) (c : string)
    (getFile : string -> option Node) (s : FilePickerVue.State) :
  let mount := fun picker =>
    FilePickerVue.dialog_container
      (FilePickerVue.dialogProps getFile
         (FilePickerVue.withDefaults (FilePicker.dialog_props picker)) s) in
  FilePickerBuilder.container (FilePickerBuilder.setContainer c builder) = Some c /\
  FilePicker.container (FilePickerBuilder.build builder) = None /\
  FilePicker.container
    (FilePickerBuilder.build (FilePickerBuilder.setContainer c builder)) = None /\
  mount (FilePickerBuilder.build builder) = "body" /\
  mount (FilePickerBuilder.build (FilePickerBuilder.setContainer c builder)) = "body".
Proof. repeat split. Qed.

(** * Further properties of the code *)

(** ** The visible entries *)

Section VisibleFacts.

Variable toLowerCase : string -> string.
Variable isSupportedMimeType : list string -> string -> bool.
Variable props : FilePickerVue.Props.

Lemma filter_is_sublist {A} (p : A -> bool) (l : list A) :
  sublist (List.filter p l) l.
Proof.
  induction l as [|x l IH]; simpl; [constructor|].
  destruct (p x); now constructor.
Qed.

Lemma In_filteredFiles (s : FilePickerVue.State) (e : Node) :
  In e (FilePickerVue.filteredFiles toLowerCase isSupportedMimeType props s) <->
  In e (FilePickerVue.files s) /\
  Spec.visible toLowerCase isSupportedMimeType (criteria props s) e = true.
Proof. rewrite filteredFiles_visible. apply List.filter_In. Qed.

(** What [Spec.visible] asks of an entry, condition by condition. *)
Lemma visible_conditions (c : Spec.FilterCriteria) (e : Node) :
  Spec.visible toLowerCase isSupportedMimeType c e = true <->
  (Spec.showHidden c = true \/ Spec.hidden e = false) /\
  (Spec.mimeAllowList c = [] \/ Spec.is_folder e = true \/
   Spec.mime_allowed isSupportedMimeType c e = true) /\
  (String.eqb (Spec.query c) "" = true \/
   Spec.contains_query toLowerCase c e = true) /\
  (forall accepts, Spec.predicate c = Some accepts -> accepts e = true).
Proof.
  unfold Spec.visible. rewrite !andb_true_iff, !orb_true_iff, negb_true_iff.
  split.
  - intros [[[H1 H2] H3] H4]. repeat split; try assumption.
    + destruct (Spec.mimeAllowList c); [now left|].
      right. now apply orb_true_iff.
    + intros accepts Ha. now rewrite Ha in H4.
  - intros (H1 & H2 & H3 & H4). repeat split; try assumption.
    + destruct (Spec.mimeAllowList c); [reflexivity|].
      apply orb_true_iff. destruct H2 as [H2|H2]; [discriminate | exact H2].
    + destruct (Spec.predicate c) as [accepts|]; [now apply H4 | reflexivity].
Qed.

End VisibleFacts.

(** X1. The visible entries are a sub-sequence of the listing: filtering
    adds no entry, repeats none and keeps the order of the listing, so there
    are at most as many visible entries as entries. *)
Theorem filteredFiles_sublist
    (toLowerCase : string -> string)
    (isSupportedMimeType : list string -> string -> bool)
    (props : FilePickerVue.Props) (s : FilePickerVue.State) :
  let visible :=
    FilePickerVue.filteredFiles toLowerCase isSupportedMimeType props s in
  sublist visible (FilePickerVue.files s) /\
  length visible <= length (FilePickerVue.files s).
Proof.
  intros visible. unfold visible. rewrite filteredFiles_visible.
  pose proof (filter_is_sublist
    (Spec.visible toLowerCase isSupportedMimeType (criteria props s))
    (FilePickerVue.files s)) as Hsub.
  split; [exact Hsub | now apply sublist_length].
Qed.

(** X2. Filtering goes entry by entry: the visible entries of two listings
    put one after the other are the visible entries of the first followed by
    those of the second. *)
Theorem filteredFiles_app
    (toLowerCase : string -> string)
    (isSupportedMimeType : list string -> string -> bool)
    (props : FilePickerVue.Props) (s : FilePickerVue.State)
    (es es' : list Node) :
  let apply := fun es =>
    FilePickerVue.filteredFiles toLowerCase isSupportedMimeType props
      (FilePickerVue.set_files es s) in
  apply (es ++ es') = apply es ++ apply es'.
Proof.
  intros apply. unfold apply. rewrite !filteredFiles_visible.
  apply List.filter_app.
Qed.

(** X3. The mime allow-list has no say on folders: for two pickers that
    differ in their allow-list and in the matching of mime types only, a
    folder is visible in the one if and only if it is visible in the
    other. *)
Theorem folder_visible_whatever_allow_list
    (toLowerCase : string -> string)
    (isSupportedMimeType isSupportedMimeType' : list string -> string -> bool)
    (props props' : FilePickerVue.Props) (s : FilePickerVue.State) (e : Node) :
  Node.type e = folder ->
  FilePickerVue.filterFn props = FilePickerVue.filterFn props' ->
  In e (FilePickerVue.filteredFiles toLowerCase isSupportedMimeType props s) <->
  In e (FilePickerVue.filteredFiles toLowerCase isSupportedMimeType' props' s).
Proof.
  intros Hf Hfn. rewrite !In_filteredFiles, !visible_conditions.
  assert (Hfolder : Spec.is_folder e = true)
    by (unfold Spec.is_folder; now rewrite Hf).
  cbn [criteria Spec.showHidden Spec.mimeAllowList Spec.query Spec.predicate
       Spec.contains_query].
  rewrite Hfn. unfold Spec.contains_query. cbn [Spec.query criteria].
  split; intros (Hin & H1 & _ & H3 & H4); repeat split; auto.
Qed.

Lemma folder_visible_whatever_allow_list_witness :
  let s := FilePickerVue.set_showHiddenFiles true
             (FilePickerVue.set_files Scenario.listing (FilePickerVue.setup ∅)) in
  In Scenario.dot_git
    (FilePickerVue.filteredFiles ascii_lower spec_isSupportedMimeType
       (FilePickerVue.withDefaults (FilePicker.dialog_props Scenario.file_picker))
       s) <->
  In Scenario.dot_git
    (FilePickerVue.filteredFiles ascii_lower spec_isSupportedMimeType
       (FilePickerVue.withDefaults (FilePicker.dialog_props Scenario.image_picker))
       s).
Proof.
  intros s.
  apply (folder_visible_whatever_allow_list ascii_lower
           spec_isSupportedMimeType spec_isSupportedMimeType
           (FilePickerVue.withDefaults
              (FilePicker.dialog_props Scenario.file_picker))
           (FilePickerVue.withDefaults
              (FilePicker.dialog_props Scenario.image_picker))
           s Scenario.dot_git); reflexivity.
Defined.

(** X4. As long as hidden files are not to be shown, no visible entry has a
    basename that starts with a dot. *)
Theorem hidden_entries_not_visible
    (toLowerCase : string -> string)
    (isSupportedMimeType : list string -> string -> bool)
    (props : FilePickerVue.Props) (s : FilePickerVue.State) (e : Node) :
  FilePickerVue.showHiddenFiles s = false ->
  In e (FilePickerVue.filteredFiles toLowerCase isSupportedMimeType props s) ->
  Js.startsWith "." (Node.basename e) = false.
Proof.
  intros Hs Hin. apply In_filteredFiles in Hin as [_ Hv].
  apply visible_conditions in Hv as ([Hshow|Hh] & _).
  - simpl in Hshow. congruence.
  - now rewrite <- hidden_startsWith.
Qed.

Lemma hidden_entries_not_visible_witness :
  Js.startsWith "." (Node.basename Scenario.photo_png) = false.
Proof.
  apply (hidden_entries_not_visible ascii_lower spec_isSupportedMimeType
           (FilePickerVue.withDefaults
              (FilePicker.dialog_props Scenario.image_picker))
           (FilePickerVue.set_files Scenario.listing (FilePickerVue.setup ∅))).
  - reflexivity.
  - simpl. left. reflexivity.
Defined.

(** X5. With an allow-list that is not empty, every visible entry that is
    not a folder has a mime type, the mime type is not the empty string and
    [isSupportedMimeType] accepts it: a file without a mime type is never
    visible then. *)
Theorem visible_file_has_supported_mime
    (toLowerCase : string -> string)
    (isSupportedMimeType : list string -> string -> bool)
    (props : FilePickerVue.Props) (s : FilePickerVue.State) (e : Node) :
  FilePickerVue.mimetypeFilter props <> [] ->
  Node.type e = file ->
  In e (FilePickerVue.filteredFiles toLowerCase isSupportedMimeType props s) ->
  exists m, Node.mime e = Some m /\ m <> "" /\
            isSupportedMimeType (FilePickerVue.mimetypeFilter props) m = true.
Proof.
  intros Hne Hf Hin. apply In_filteredFiles in Hin as [_ Hv].
  apply visible_conditions in Hv as (_ & [Hm|[Hm|Hm]] & _).
  - now destruct Hne.
  - unfold Spec.is_folder in Hm. rewrite Hf in Hm. discriminate.
  - unfold Spec.mime_allowed in Hm. simpl in Hm.
    destruct (Node.mime e) as [m|]; [|discriminate].
    exists m. destruct (String.eqb m "") eqn:E; [discriminate|].
    apply String.eqb_neq in E. now repeat split.
Qed.

Lemma visible_file_has_supported_mime_witness :
  exists m, Node.mime Scenario.photo_png = Some m /\ m <> "" /\
            spec_isSupportedMimeType ["image/*"] m = true.
Proof.
  apply (visible_file_has_supported_mime ascii_lower spec_isSupportedMimeType
           (FilePickerVue.withDefaults
              (FilePicker.dialog_props Scenario.image_picker))
           (FilePickerVue.set_files Scenario.listing (FilePickerVue.setup ∅))).
  - discriminate.
  - reflexivity.
  - simpl. left. reflexivity.
Defined.

(** ** Runs of a mounted picker *)

Section RunFacts.

Import FilePickerVue.

Variable getFile : string -> option Node.
Variable props : Props.

Lemma run_cons (s : State) (e : Event) (es : list Event) :
  run getFile props s (e :: es) = run getFile props (step getFile props s e) es.
Proof. reflexivity. Qed.

(** A click does nothing, or calls the callback of a button with some nodes
    and emits [close] with the same nodes. *)
Lemma click_shape (s : State) (i : nat) :
  step getFile props s (Click i) = s \/
  exists button nodes,
    nth_error (currentButtons props s) i = Some button /\
    step getFile props s (Click i) =
      emit_close (Some nodes) (call_button button nodes s).
Proof.
  cbn [step]. unfold dialogButtons. rewrite nth_error_map.
  destruct (nth_error (currentButtons props s) i) as [button|]; [|now left].
  cbn [option_map]. unfold wrapped_callback.
  destruct (_ && _).
  - destruct (getFile _) as [dir|]; [|now left].
    right. now exists button, [dir].
  - right. now exists button, (selectedFiles s).
Qed.

Ltac step_cases s e :=
  let i := fresh "i" in
  let H := fresh "H" in
  destruct e as [?|?|?|?|?|?|?|i|[]|? [] []];
  [ | | | | | | | destruct (click_shape s i) as [H|(? & ? & _ & H)];
                  rewrite H; clear H | | | | | | ];
  cbn [step]; unfold set_currentPath, handleClose, onCreateFolder;
  try destruct (path props).

Lemma step_showHiddenFiles (s : State) (e : Event) :
  is_SettingsLoaded e = false ->
  showHiddenFiles (step getFile props s e) = showHiddenFiles s.
Proof. intros He. step_cases s e; try reflexivity; discriminate. Qed.

Lemma run_showHiddenFiles (s : State) (es : list Event) :
  forallb (fun e => negb (is_SettingsLoaded e)) es = true ->
  showHiddenFiles (run getFile props s es) = showHiddenFiles s.
Proof.
  revert s. induction es as [|e es IH]; intros s Hes; [reflexivity|].
  simpl in Hes. apply andb_true_iff in Hes as [He Hes].
  apply negb_true_iff in He.
  rewrite run_cons, IH by assumption. now apply step_showHiddenFiles.
Qed.

Lemma step_selectedFiles (s : State) (e : Event) :
  assigns_selection e = false ->
  selectedFiles (step getFile props s e) = selectedFiles s.
Proof. intros He. step_cases s e; try reflexivity; discriminate. Qed.

Lemma step_savedPath (s : State) (e : Event) :
  savedPath (step getFile props s e) = savedPath s.
Proof. step_cases s e; reflexivity. Qed.

Lemma step_sessionStorage (s : State) (e : Event) :
  sessionStorage (step getFile props s e) =
  match e, path props with
  | BreadcrumbsPath p, None | FileListPath p, None =>
      <[LastPath := p]> (sessionStorage s)
  | _, _ => sessionStorage s
  end.
Proof. step_cases s e; reflexivity. Qed.

Lemma run_sessionStorage_no_path_update (s : State) (es : list Event) :
  forallb (fun e => negb (is_path_update e)) es = true ->
  sessionStorage (run getFile props s es) = sessionStorage s.
Proof.
  revert s. induction es as [|e es IH]; intros s Hes; [reflexivity|].
  simpl in Hes. apply andb_true_iff in Hes as [He Hes].
  rewrite run_cons, IH, step_sessionStorage by assumption.
  destruct e; try reflexivity; discriminate.
Qed.

Lemma run_sessionStorage_other_key (s : State) (es : list Event) (k : string) :
  k <> LastPath ->
  sessionStorage (run getFile props s es) !! k = sessionStorage s !! k.
Proof.
  intros Hk. revert s. induction es as [|e es IH]; intros s; [reflexivity|].
  rewrite run_cons, IH, step_sessionStorage.
  destruct e, (path props); try reflexivity;
    now rewrite lookup_insert_ne by congruence.
Qed.

Lemma run_sessionStorage_start_path (s : State) (es : list Event) :
  path props <> None ->
  sessionStorage (run getFile props s es) = sessionStorage s.
Proof.
  intros Hp. revert s. induction es as [|e es IH]; intros s; [reflexivity|].
  rewrite run_cons, IH, step_sessionStorage.
  destruct e, (path props); try reflexivity; congruence.
Qed.

(** The [close] events and the calls of the caller's callbacks go
    together. *)
Lemma step_closed_calls (s : State) (e : Event) :
  omap id (closed s) = map snd (buttonCalls s) ->
  omap id (closed (step getFile props s e)) =
  map snd (buttonCalls (step getFile props s e)).
Proof.
  intros Hs. step_cases s e; try exact Hs; cbn [closed buttonCalls emit_close
    call_button].
  all: cbn [negb closed buttonCalls emit_close];
    rewrite omap_app, ?map_app, Hs; simpl; rewrite ?app_nil_r; reflexivity.
Qed.

(** The [close] events emitted so far stay; new ones come after them. *)
Lemma step_closed_grows (s : State) (e : Event) :
  exists more, closed (step getFile props s e) = closed s ++ more /\
               (may_close e = false -> more = []).
Proof.
  step_cases s e; cbn [negb closed emit_close call_button];
    try (exists []; split; [now rewrite app_nil_r | reflexivity]);
    eexists; (split; [reflexivity | discriminate]).
Qed.

Lemma run_closed_grows (s : State) (es : list Event) :
  exists more, closed (run getFile props s es) = closed s ++ more.
Proof.
  revert s. induction es as [|e es IH]; intros s.
  - exists []. now rewrite app_nil_r.
  - rewrite run_cons. destruct (IH (step getFile props s e)) as [more ->].
    destruct (step_closed_grows s e) as (more' & -> & _).
    exists (more' ++ more). now rewrite app_assoc.
Qed.

End RunFacts.

(** X6. Only the settings, when they are loaded, change whether hidden
    files are shown: from a state in which they are not shown, after any
    events among which the settings were not loaded, no visible entry has a
    basename that starts with a dot. *)
Theorem hidden_until_settings_loaded
    (toLowerCase : string -> string)
    (isSupportedMimeType : list string -> string -> bool)
    (getFile : string -> option Node) (props : FilePickerVue.Props)
    (s : FilePickerVue.State) (es : list FilePickerVue.Event) (e : Node) :
  FilePickerVue.showHiddenFiles s = false ->
  forallb (fun ev => negb (is_SettingsLoaded ev)) es = true ->
  In e (FilePickerVue.filteredFiles toLowerCase isSupportedMimeType props
          (FilePickerVue.run getFile props s es)) ->
  Js.startsWith "." (Node.basename e) = false.
Proof.
  intros Hs Hes Hin. apply In_filteredFiles in Hin as [_ Hv].
  apply visible_conditions in Hv as ([Hshow|Hh] & _).
  - simpl in Hshow. rewrite run_showHiddenFiles, Hs in Hshow by assumption.
    discriminate.
  - now rewrite <- hidden_startsWith.
Qed.

Lemma hidden_until_settings_loaded_witness :
  Js.startsWith "." (Node.basename Scenario.readme_md) = false.
Proof.
  apply (hidden_until_settings_loaded ascii_lower spec_isSupportedMimeType
           Scenario.folder_at
           (FilePickerVue.withDefaults
              (FilePicker.dialog_props Scenario.file_picker))
           (FilePickerVue.set_showHiddenFiles false (FilePickerVue.setup ∅))
           [FilePickerVue.FilesLoaded Scenario.listing;
            FilePickerVue.NavigationFilter "read"]).
  - reflexivity.
  - reflexivity.
  - simpl. left. reflexivity.
Defined.

(** X7. After the file list updated the path, the view is the files view
    and the current path is the new path. The empty string is the exception:
    it counts as no path, and the current path is the start path of the
    caller or, without one, the last path read at set-up. *)
Theorem currentPath_after_file_list_path
    (getFile : string -> option Node) (props : FilePickerVue.Props)
    (s : FilePickerVue.State) (p : string) :
  let s' := FilePickerVue.step getFile props s (FilePickerVue.FileListPath p) in
  FilePickerVue.currentView s' = Files /\
  FilePickerVue.currentPath props s' =
    match p with
    | EmptyString =>
        Js.or_else (FilePickerVue.path props) (FilePickerVue.savedPath s)
    | String _ _ => p
    end.
Proof.
  split; [reflexivity|].
  unfold FilePickerVue.currentPath, FilePickerVue.step,
    FilePickerVue.set_currentPath.
  destruct (FilePickerVue.path props); simpl; now destruct p.
Qed.

(** X8. The last path survives the picker: when a picker without a start
    path navigated to a path, and no other navigation followed, a picker
    without a start path that is set up on the session storage left behind
    starts at that path. *)
Theorem last_path_round_trip
    (getFile : string -> option Node) (props props' : FilePickerVue.Props)
    (s : FilePickerVue.State) (p : string) (es : list FilePickerVue.Event) :
  FilePickerVue.path props = None ->
  FilePickerVue.path props' = None ->
  p <> "" ->
  forallb (fun e => negb (is_path_update e)) es = true ->
  let s' := FilePickerVue.run getFile props s
              (FilePickerVue.FileListPath p :: es) in
  FilePickerVue.currentPath props'
    (FilePickerVue.setup (FilePickerVue.sessionStorage s')) = p.
Proof.
  intros Hp Hp' Hne Hes s'. unfold s'.
  rewrite run_cons, run_sessionStorage_no_path_update, step_sessionStorage, Hp
    by assumption.
  unfold FilePickerVue.currentPath. simpl. rewrite Hp', lookup_insert_eq.
  simpl. now apply JsFacts.or_else_truthy.
Qed.

Lemma last_path_round_trip_witness :
  let props := FilePickerVue.withDefaults
                 (FilePicker.dialog_props Scenario.file_picker) in
  FilePickerVue.currentPath props
    (FilePickerVue.setup
       (FilePickerVue.sessionStorage
          (FilePickerVue.run Scenario.folder_at props (FilePickerVue.setup ∅)
             [FilePickerVue.FileListPath "/Music";
              FilePickerVue.NavigationView Recent;
              FilePickerVue.UpdateOpen false]))) = "/Music".
Proof.
  intros props.
  apply (last_path_round_trip Scenario.folder_at props props
           (FilePickerVue.setup ∅) "/Music"
           [FilePickerVue.NavigationView Recent; FilePickerVue.UpdateOpen false]);
    [reflexivity | reflexivity | discriminate | reflexivity].
Defined.

(** X9. Whatever happens to a picker, the only key of the session storage
    it writes is the key of the last path, and a picker that was given a
    start path does not write the session storage at all. *)
Theorem session_storage_only_last_path
    (getFile : string -> option Node) (props : FilePickerVue.Props)
    (s : FilePickerVue.State) (es : list FilePickerVue.Event) (k : string) :
  let s' := FilePickerVue.run getFile props s es in
  (k <> FilePickerVue.LastPath ->
   FilePickerVue.sessionStorage s' !! k = FilePickerVue.sessionStorage s !! k) /\
  (FilePickerVue.path props <> None ->
   FilePickerVue.sessionStorage s' = FilePickerVue.sessionStorage s).
Proof.
  split.
  - apply run_sessionStorage_other_key.
  - apply run_sessionStorage_start_path.
Qed.

Lemma session_storage_only_last_path_witness :
  let es := [FilePickerVue.FileListPath "/Music";
             FilePickerVue.BreadcrumbsPath "/Music/Live"] in
  FilePickerVue.sessionStorage
    (FilePickerVue.run Scenario.folder_at
       (FilePickerVue.withDefaults (FilePicker.dialog_props Scenario.file_picker))
       (FilePickerVue.setup {["theme" := "dark"]}) es) !! "theme" = Some "dark" /\
  FilePickerVue.sessionStorage
    (FilePickerVue.run Scenario.folder_at
       (FilePickerVue.withDefaults
          (FilePicker.dialog_props Scenario.documents_picker))
       (FilePickerVue.setup {["theme" := "dark"]}) es) = {["theme" := "dark"]}.
Proof.
  intros es. split.
  - transitivity
      (FilePickerVue.sessionStorage
         (FilePickerVue.setup {["theme" := "dark"]}) !! "theme").
    + apply (proj1 (session_storage_only_last_path Scenario.folder_at
               (FilePickerVue.withDefaults
                  (FilePicker.dialog_props Scenario.file_picker))
               (FilePickerVue.setup {["theme" := "dark"]}) es "theme")).
      discriminate.
    + vm_compute. reflexivity.
  - refine (proj2 (session_storage_only_last_path Scenario.folder_at
             (FilePickerVue.withDefaults
                (FilePicker.dialog_props Scenario.documents_picker))
             (FilePickerVue.setup {["theme" := "dark"]}) es "theme") _).
    discriminate.
Defined.

(** X10. A picker built after [startAt] never writes the session storage,
    whatever else the builder was told and whatever happens to the dialog. *)
Theorem picker_with_start_path_never_stores
    (getFile : string -> option Node) (builder : FilePickerBuilder.t)
    (p : string) (storage : gmap string string)
    (es : list FilePickerVue.Event) :
  FilePickerVue.sessionStorage
    (FilePicker.dialog getFile
       (FilePickerBuilder.build (FilePickerBuilder.startAt p builder))
       storage es) = storage.
Proof.
  unfold FilePicker.dialog.
  rewrite run_sessionStorage_start_path; [reflexivity | discriminate].
Qed.

(** X11. The selection is assigned by the file list and emptied by the
    setter of the current path, and by nothing else: a switch of the view, a
    change of the filter string, a new listing, the settings, the creation of
    a folder, a click on a button and the closing of the dialog all leave it
    as it is. *)
Theorem selection_kept
    (getFile : string -> option Node) (props : FilePickerVue.Props)
    (s : FilePickerVue.State) (es : list FilePickerVue.Event) :
  forallb (fun e => negb (assigns_selection e)) es = true ->
  FilePickerVue.selectedFiles (FilePickerVue.run getFile props s es) =
  FilePickerVue.selectedFiles s.
Proof.
  revert s. induction es as [|e es IH]; intros s Hes; [reflexivity|].
  simpl in Hes. apply andb_true_iff in Hes as [He Hes].
  apply negb_true_iff in He.
  rewrite run_cons, IH by assumption. now apply step_selectedFiles.
Qed.

(** A file selected in the files view stays selected in the view of the
    favorites, where the current path is the root. *)
Lemma selection_kept_witness :
  let props := FilePickerVue.withDefaults
                 (FilePicker.dialog_props Scenario.file_picker) in
  let s := FilePickerVue.run Scenario.folder_at props
             (FilePickerVue.set_selectedFiles [Scenario.photo_png]
                (FilePickerVue.setup ∅))
             [FilePickerVue.NavigationView Favorites;
              FilePickerVue.NavigationFilter "x";
              FilePickerVue.FilesLoaded []] in
  FilePickerVue.selectedFiles s = [Scenario.photo_png].
Proof.
  intros props s.
  apply (selection_kept Scenario.folder_at props
           (FilePickerVue.set_selectedFiles [Scenario.photo_png]
              (FilePickerVue.setup ∅))).
  reflexivity.
Defined.

(** ** The promise of [pick], over whole runs *)

Lemma dialog_app
    (getFile : string -> option Node) (this : FilePicker.t)
    (storage : gmap string string) (es es' : list FilePickerVue.Event) :
  FilePicker.dialog getFile this storage (es ++ es') =
  FilePickerVue.run getFile
    (FilePickerVue.withDefaults (FilePicker.dialog_props this))
    (FilePicker.dialog getFile this storage es) es'.
Proof. unfold FilePicker.dialog. apply run_app. Qed.

Lemma pick_pending_closed
    (getFile : string -> option Node) (this : FilePicker.t)
    (storage : gmap string string) (es : list FilePickerVue.Event) :
  FilePicker.pick getFile this storage es = FilePicker.Pending <->
  FilePickerVue.closed (FilePicker.dialog getFile this storage es) = [].
Proof.
  unfold FilePicker.pick.
  destruct (FilePickerVue.closed _) as [|nodes closes].
  - split; reflexivity.
  - rewrite settle_cons. split; [|discriminate].
    intros H. now destruct (outcome_settled this nodes).
Qed.

Lemma or_else_nonempty (a : option string) (d : string) :
  d <> "" -> Js.or_else a d <> "".
Proof.
  intros Hd. unfold Js.or_else. destruct a as [s|]; [|exact Hd].
  destruct s; [exact Hd | discriminate].
Qed.

(** X13. The promise of [pick] is settled once: after the first [close]
    event of the dialog, nothing that happens to the dialog changes what
    [pick] resolved to or rejected with. *)
Theorem pick_settled_once
    (getFile : string -> option Node) (this : FilePicker.t)
    (storage : gmap string string) (es es' : list FilePickerVue.Event) :
  FilePicker.pick getFile this storage es <> FilePicker.Pending ->
  FilePicker.pick getFile this storage (es ++ es') =
  FilePicker.pick getFile this storage es.
Proof.
  intros Hp. unfold FilePicker.pick in *. rewrite dialog_app.
  destruct (run_closed_grows getFile
              (FilePickerVue.withDefaults (FilePicker.dialog_props this))
              (FilePicker.dialog getFile this storage es) es') as [more ->].
  destruct (FilePickerVue.closed _) as [|nodes closes]; [now destruct Hp|].
  simpl. now rewrite !settle_cons.
Qed.

(** A picker is dismissed; a later click on its button, with a file
    selected, does not turn the rejection into a result. *)
Lemma pick_settled_once_witness :
  FilePicker.pick Scenario.folder_at Scenario.file_picker ∅
    ([FilePickerVue.UpdateOpen false] ++
     [FilePickerVue.FileListSelected [Scenario.photo_png];
      FilePickerVue.Click 0]) =
  FilePicker.Rejected (MkFilePickerClosed "FilePicker: No nodes selected").
Proof.
  rewrite (pick_settled_once Scenario.folder_at Scenario.file_picker ∅
             [FilePickerVue.UpdateOpen false]).
  - reflexivity.
  - discriminate.
Defined.

(** X14. What [pick] resolves to is read off the first [close] event of
    the dialog, which carries at least one node: a multi-select picker
    resolves to the list of the paths of these nodes, in their order, which is
    therefore not empty, and a single-select picker resolves to one path that
    is not the empty string, the path of the first of these nodes unless that
    path is empty. *)
Theorem pick_resolves_to_shape
    (getFile : string -> option Node) (this : FilePicker.t)
    (storage : gmap string string) (es : list FilePickerVue.Event)
    (v : FilePicker.Picked) :
  FilePicker.pick getFile this storage es = FilePicker.Resolved v ->
  exists first rest,
    head (FilePickerVue.closed (FilePicker.dialog getFile this storage es)) =
      Some (Some (first :: rest)) /\
    if FilePicker.multiSelect this
    then v = FilePicker.PathList (map Node.path (first :: rest))
    else exists p, v = FilePicker.SinglePath p /\ p <> "" /\
                   (Node.path first <> "" -> p = Node.path first).
Proof.
  unfold FilePicker.pick.
  destruct (FilePickerVue.closed _) as [|nodes closes]; [discriminate|].
  rewrite settle_cons. destruct nodes as [[|first rest]|]; try discriminate.
  unfold FilePicker.outcome. intros Hv. exists first, rest.
  split; [reflexivity|].
  destruct (FilePicker.multiSelect this); injection Hv as <-.
  - reflexivity.
  - eexists. split; [reflexivity|]. split.
    + refine (or_else_nonempty (Some (Node.path first)) "/" _). discriminate.
    + intros Hp. now apply JsFacts.or_else_truthy.
Qed.

Lemma pick_resolves_to_shape_witness :
  (exists first rest,
     head (FilePickerVue.closed
             (FilePicker.dialog Scenario.folder_at Scenario2.multi_picker ∅
                [FilePickerVue.FileListSelected
                   [Scenario.photo_png; Scenario.readme_md];
                 FilePickerVue.Click 0])) = Some (Some (first :: rest)) /\
     FilePicker.PathList ["/photo.png"; "/readme.md"] =
       FilePicker.PathList (map Node.path (first :: rest))) /\
  (exists first rest,
     head (FilePickerVue.closed
             (FilePicker.dialog Scenario.folder_at Scenario.file_picker ∅
                [FilePickerVue.FileListSelected [Scenario.photo_png];
                 FilePickerVue.Click 0])) = Some (Some (first :: rest)) /\
     exists p, FilePicker.SinglePath "/photo.png" = FilePicker.SinglePath p /\
               p <> "" /\ (Node.path first <> "" -> p = Node.path first)).
Proof.
  split.
  - apply (pick_resolves_to_shape Scenario.folder_at Scenario2.multi_picker ∅
             [FilePickerVue.FileListSelected
                [Scenario.photo_png; Scenario.readme_md];
              FilePickerVue.Click 0]).
    reflexivity.
  - apply (pick_resolves_to_shape Scenario.folder_at Scenario.file_picker ∅
             [FilePickerVue.FileListSelected [Scenario.photo_png];
              FilePickerVue.Click 0]).
    reflexivity.
Defined.

(** X15. The promise of [pick] is pending exactly as long as the dialog has
    not emitted [close], and only a click on a button or the closing of the
    dialog can settle it: navigation, a switch of the view, the filter string,
    the selection, a new listing, the settings and the creation of a folder
    leave the promise as it is, and so does the opening of the dialog. *)
Theorem pick_settled_by_click_or_close_only
    (getFile : string -> option Node) (this : FilePicker.t)
    (storage : gmap string string) (es : list FilePickerVue.Event)
    (e : FilePickerVue.Event) :
  (FilePicker.pick getFile this storage es = FilePicker.Pending <->
   FilePickerVue.closed (FilePicker.dialog getFile this storage es) = []) /\
  (may_close e = false ->
   FilePicker.pick getFile this storage (es ++ [e]) =
   FilePicker.pick getFile this storage es) /\
  FilePicker.pick getFile this storage (es ++ [FilePickerVue.UpdateOpen true]) =
  FilePicker.pick getFile this storage es.
Proof.
  split; [apply pick_pending_closed|]. split.
  - intros He. unfold FilePicker.pick. rewrite dialog_app.
    change (FilePickerVue.run ?g ?p ?s [e]) with (FilePickerVue.step g p s e).
    destruct (step_closed_grows getFile
                (FilePickerVue.withDefaults (FilePicker.dialog_props this))
                (FilePicker.dialog getFile this storage es) e)
      as (more & -> & Hmore).
    now rewrite (Hmore He), app_nil_r.
  - unfold FilePicker.pick. now rewrite dialog_app.
Qed.

Lemma pick_settled_by_click_or_close_only_witness :
  FilePicker.pick Scenario.folder_at Scenario.file_picker ∅
    ([FilePickerVue.FileListSelected [Scenario.photo_png]] ++
     [FilePickerVue.CreateFolder "New Folder" false None]) =
  FilePicker.Pending.
Proof.
  rewrite (proj1 (proj2 (pick_settled_by_click_or_close_only
             Scenario.folder_at Scenario.file_picker ∅
             [FilePickerVue.FileListSelected [Scenario.photo_png]]
             (FilePickerVue.CreateFolder "New Folder" false None)))).
  - reflexivity.
  - reflexivity.
Defined.

(** ** Creating a folder, continued *)

(** X16. When the folder was created and the listing reloaded, the event
    [files:node:created] carries the first entry of the new listing whose
    basename is the name of the folder: of two entries of that name the one
    that comes first, whatever the other properties of the entries. No error
    is shown. *)
Theorem createFolder_emits_first_match
    (name : string) (s : FilePickerVue.State) (e : Node)
    (before after : list Node) :
  Node.basename e = name ->
  Forall (fun f => Node.basename f <> name) before ->
  let s' := FilePickerVue.onCreateFolder name true
              (Some (before ++ e :: after)) s in
  FilePickerVue.eventBus s' =
    FilePickerVue.eventBus s ++ [("files:node:created", Some e)] /\
  FilePickerVue.files s' = before ++ e :: after /\
  FilePickerVue.toasts s' = FilePickerVue.toasts s.
Proof.
  intros He Hb s'.
  destruct (onCreateFolder_reloaded name (before ++ e :: after) s)
    as (Hf & Ht & Hbus).
  fold s' in Hf, Ht, Hbus. rewrite Hbus, Hf, Ht. repeat split.
  do 3 f_equal. rewrite List.filter_app.
  assert (Hnone : List.filter
                    (fun f => String.eqb (Node.basename f) name) before = []).
  { clear -Hb. induction Hb as [|f before Hf _ IH]; [reflexivity|].
    simpl. apply String.eqb_neq in Hf. now rewrite Hf. }
  rewrite Hnone. simpl. apply String.eqb_eq in He. now rewrite He.
Qed.

Lemma createFolder_emits_first_match_witness :
  FilePickerVue.eventBus
    (FilePickerVue.onCreateFolder "Music" true
       (Some ([Scenario.photo_png] ++ Scenario2.music :: [Scenario2.music_again]))
       (FilePickerVue.setup ∅)) =
  [("files:node:created", Some Scenario2.music)].
Proof.
  apply (createFolder_emits_first_match "Music" (FilePickerVue.setup ∅)
           Scenario2.music [Scenario.photo_png] [Scenario2.music_again]).
  - reflexivity.
  - repeat constructor. discriminate.
Defined.

(** X17. When the folder cannot be created, and also when it is created but
    the listing cannot be reloaded, [onCreateFolder] writes one warning to the
    console, shows the one error "Could not create the new folder", sends no
    event on the event bus and emits no [close]: a failure of the reload is
    reported as a failure of the creation. A failed creation leaves the refs
    of the picker as they were. *)
Theorem createFolder_failures_alike
    (name : string) (reloaded : option (list Node)) (s : FilePickerVue.State) :
  let not_created := FilePickerVue.onCreateFolder name false reloaded s in
  let not_reloaded := FilePickerVue.onCreateFolder name true None s in
  let reported := fun s' =>
    FilePickerVue.toasts s' =
      FilePickerVue.toasts s ++ ["Could not create the new folder"] /\
    FilePickerVue.console s' =
      FilePickerVue.console s ++ ["Could not create new folder"] /\
    FilePickerVue.eventBus s' = FilePickerVue.eventBus s /\
    FilePickerVue.closed s' = FilePickerVue.closed s in
  reported not_created /\ reported not_reloaded /\
  FilePickerVue.same_refs s not_created.
Proof. unfold FilePickerVue.same_refs. repeat split. Qed.

(** ** The builder, over chains of calls *)

Section ChainFacts.

Import FilePickerBuilder.

Lemma chain_snoc (title : string) (cs : list Call) (c : Call) :
  chain title (cs ++ [c]) = call (chain title cs) c.
Proof. unfold chain. now rewrite fold_left_app. Qed.

Lemma calls_app (bc : t * list string) (cs cs' : list Call) :
  fold_left call (cs ++ cs') bc = fold_left call cs' (fold_left call cs bc).
Proof. apply fold_left_app. Qed.

(** Calls on a builder that holds a list of buttons, none of which sets a
    factory. *)
Lemma calls_without_factory (this : t) (console : list string)
    (l : list IFilePickerButton) (cs : list Call) :
  buttons this = ButtonList l ->
  forallb (fun c => negb (is_SetButtonFactory c)) cs = true ->
  buttons (fst (fold_left call cs (this, console))) =
    ButtonList (l ++ added_buttons cs) /\
  snd (fold_left call cs (this, console)) = console.
Proof.
  revert this console l. induction cs as [|c cs IH]; intros this console l Hb Hcs.
  - simpl. now rewrite app_nil_r.
  - simpl in Hcs. apply andb_true_iff in Hcs as [Hc Hcs].
    destruct c; try discriminate; cbn [fold_left call added_buttons];
      try (apply IH; assumption).
    unfold addButton. rewrite Hb. cbn [is_function].
    rewrite Hb. rewrite app_nil_r.
    destruct (IH (set_buttons (ButtonList (l ++ [button])) this) console
                (l ++ [button]) eq_refl Hcs) as [H1 H2].
    rewrite H1, H2. now rewrite <- app_assoc.
Qed.

Lemma added_buttons_cons (c : Call) (cs : list Call) :
  added_buttons (c :: cs) = added_buttons [c] ++ added_buttons cs.
Proof. now destruct c. Qed.

Lemma call_console (bc : t * list string) (c : Call) :
  exists warnings,
    snd (call bc c) = snd bc ++ warnings /\
    Forall (eq factory_overwritten) warnings /\
    length warnings <= length (added_buttons [c]).
Proof.
  destruct bc as [this console].
  destruct c; cbn [call snd added_buttons];
    try (exists []; rewrite app_nil_r; repeat split; [constructor | simpl; lia]).
  - unfold addButton.
    destruct (buttons this) as [l|f] eqn:Hb; cbn [is_function].
    + rewrite Hb. exists []. repeat split; [constructor | simpl; lia].
    + exists [factory_overwritten]. repeat split; [|simpl; lia].
      repeat constructor.
  - exists []. repeat split; [constructor | simpl; lia].
Qed.

Lemma calls_console (bc : t * list string) (cs : list Call) :
  exists warnings,
    snd (fold_left call cs bc) = snd bc ++ warnings /\
    Forall (eq factory_overwritten) warnings /\
    length warnings <= length (added_buttons cs).
Proof.
  revert bc. induction cs as [|c cs IH]; intros bc.
  - exists []. simpl. rewrite app_nil_r. repeat split; [constructor | lia].
  - cbn [fold_left]. destruct (IH (call bc c)) as (w' & Hw' & Ha' & Hl').
    destruct (call_console bc c) as (w & Hw & Ha & Hl).
    exists (w ++ w'). rewrite Hw', Hw, added_buttons_cons, !length_app.
    repeat split.
    + now rewrite app_assoc.
    + now apply Forall_app.
    + lia.
Qed.

Lemma calls_multiSelect (bc : t * list string) (cs : list Call) :
  forallb (fun c => negb (is_SetMultiSelect c)) cs = true ->
  multiSelect (fst (fold_left call cs bc)) = multiSelect (fst bc).
Proof.
  revert bc. induction cs as [|c cs IH]; intros [this console] Hcs;
    [reflexivity|].
  simpl in Hcs. apply andb_true_iff in Hcs as [Hc Hcs].
  cbn [fold_left]. rewrite IH by assumption.
  destruct c; try discriminate; try reflexivity.
  - cbn [call]. unfold addButton.
    destruct (buttons this) as [l|f] eqn:Hb; cbn [is_function].
    + now rewrite Hb.
    + reflexivity.
Qed.

Lemma calls_add_mime (this : t) (console : list string) (fs : list string) :
  fold_left call (map AddMimeTypeFilter fs) (this, console) =
  (setMimeTypeFilter (mimeTypeFilter this ++ fs) this, console).
Proof.
  revert this. induction fs as [|f fs IH]; intros this.
  - simpl. rewrite app_nil_r. now destruct this.
  - cbn [map fold_left call]. rewrite IH. unfold addMimeTypeFilter.
    cbn [mimeTypeFilter setMimeTypeFilter]. rewrite <- app_assoc.
    reflexivity.
Qed.

End ChainFacts.

(** X18. A chain of calls on a new builder in which the buttons are set by
    [addButton] alone, that is one that calls neither [setButtonFactory] nor
    [setType] (which is not among the calls of a chain), leaves the buttons of
    its [addButton] calls, in the order of the calls, and nothing on the
    console. *)
Theorem buttons_added_in_order
    (title : string) (cs : list FilePickerBuilder.Call) :
  forallb (fun c => negb (is_SetButtonFactory c)) cs = true ->
  FilePickerBuilder.buttons (fst (FilePickerBuilder.chain title cs)) =
    ButtonList (added_buttons cs) /\
  snd (FilePickerBuilder.chain title cs) = [].
Proof.
  intros Hcs.
  apply (calls_without_factory (FilePickerBuilder.new title) [] [] cs eq_refl Hcs).
Qed.

Lemma buttons_added_in_order_witness :
  let cs := [FilePickerBuilder.AddButton Scenario.choose;
             FilePickerBuilder.StartAt "/Music";
             FilePickerBuilder.AddButton Scenario2.other] in
  FilePickerBuilder.buttons (fst (FilePickerBuilder.chain "Pick" cs)) =
    ButtonList [Scenario.choose; Scenario2.other] /\
  snd (FilePickerBuilder.chain "Pick" cs) = [].
Proof.
  intros cs. apply (buttons_added_in_order "Pick" cs). reflexivity.
Defined.

(** X19. The builder writes nothing to the console but the warning of
    [addButton], and at most one warning for each [addButton] call of the
    chain. *)
Theorem console_of_chain (title : string) (cs : list FilePickerBuilder.Call) :
  Forall (eq factory_overwritten) (snd (FilePickerBuilder.chain title cs)) /\
  length (snd (FilePickerBuilder.chain title cs)) <= length (added_buttons cs).
Proof.
  destruct (calls_console (FilePickerBuilder.new title, []) cs)
    as (w & Hw & Ha & Hl).
  unfold FilePickerBuilder.chain. rewrite Hw. now split.
Qed.

(** X20. [setMimeTypeFilter] replaces the allow-list and [addMimeTypeFilter]
    appends to it: after a call of the first and calls of the second, whatever
    was called before, the allow-list is the list that was set followed by the
    patterns that were added, in the order of the calls, and this is the
    allow-list the component of the built picker filters by. *)
Theorem mime_filter_set_then_added
    (title : string) (cs : list FilePickerBuilder.Call)
    (l fs : list string) :
  let builder :=
    fst (FilePickerBuilder.chain title
           (cs ++ FilePickerBuilder.SetMimeTypeFilter l ::
                  map FilePickerBuilder.AddMimeTypeFilter fs)) in
  FilePickerBuilder.mimeTypeFilter builder = l ++ fs /\
  FilePickerVue.mimetypeFilter
    (FilePickerVue.withDefaults
       (FilePicker.dialog_props (FilePickerBuilder.build builder))) = l ++ fs.
Proof.
  assert (H : FilePickerBuilder.mimeTypeFilter
                (fst (FilePickerBuilder.chain title
                        (cs ++ FilePickerBuilder.SetMimeTypeFilter l ::
                               map FilePickerBuilder.AddMimeTypeFilter fs))) =
              l ++ fs).
  { unfold FilePickerBuilder.chain. rewrite calls_app.
    destruct (fold_left FilePickerBuilder.call cs _) as [this console].
    cbn [fold_left FilePickerBuilder.call]. now rewrite calls_add_mime. }
  split; [exact H|]. simpl. exact H.
Qed.

(** X21. A picker built by the builder is a single-select picker unless
    [setMultiSelect] was called: the builder always hands its own flag to the
    component, whose default, multi-select, therefore never applies to a built
    picker. *)
Theorem built_picker_single_select_by_default
    (title : string) (cs : list FilePickerBuilder.Call)
    (raw : FilePickerVue.RawProps) :
  (forallb (fun c => negb (is_SetMultiSelect c)) cs = true ->
   FilePickerVue.multiselect
     (FilePickerVue.withDefaults
        (FilePicker.dialog_props
           (FilePickerBuilder.build (fst (FilePickerBuilder.chain title cs)))))
     = false) /\
  (FilePickerVue.raw_multiselect raw = None ->
   FilePickerVue.multiselect (FilePickerVue.withDefaults raw) = true).
Proof.
  split.
  - intros Hcs. simpl. unfold FilePickerBuilder.chain.
    now rewrite calls_multiSelect.
  - intros Hr. simpl. now rewrite Hr.
Qed.

Lemma built_picker_single_select_by_default_witness :
  FilePickerVue.multiselect
    (FilePickerVue.withDefaults
       (FilePicker.dialog_props
          (FilePickerBuilder.build
             (fst (FilePickerBuilder.chain "Pick"
                     [FilePickerBuilder.AllowDirectories true;
                      FilePickerBuilder.AddButton Scenario.choose])))))
    = false /\
  FilePickerVue.multiselect
    (FilePickerVue.withDefaults
       {| FilePickerVue.raw_buttons := ButtonList [];
          FilePickerVue.raw_name := "Pick";
          FilePickerVue.raw_allowPickDirectory := None;
          FilePickerVue.raw_container := None;
          FilePickerVue.raw_filterFn := None;
          FilePickerVue.raw_mimetypeFilter := None;
          FilePickerVue.raw_multiselect := None;
          FilePickerVue.raw_path := None |}) = true.
Proof.
  split.
  - apply (proj1 (built_picker_single_select_by_default "Pick"
                    [FilePickerBuilder.AllowDirectories true;
                     FilePickerBuilder.AddButton Scenario.choose]
                    (FilePicker.dialog_props Scenario.file_picker))).
    reflexivity.
  - apply (proj2 (built_picker_single_select_by_default "Pick" []
                    {| FilePickerVue.raw_buttons := ButtonList [];
                       FilePickerVue.raw_name := "Pick";
                       FilePickerVue.raw_allowPickDirectory := None;
                       FilePickerVue.raw_container := None;
                       FilePickerVue.raw_filterFn := None;
                       FilePickerVue.raw_mimetypeFilter := None;
                       FilePickerVue.raw_multiselect := None;
                       FilePickerVue.raw_path := None |})).
    reflexivity.
Defined.

(** ** The buttons of the legacy types *)

(** X22. The factory of [setType] gives one button for the types Choose,
    Copy and Move, two for CopyMove, Copy before Move, and none for Custom.
    Whatever the selection, the path and the multi-select flag, exactly one of
    the buttons is a primary button, the first one, unless the type is Custom;
    only the Move button of CopyMove is secondary. The callbacks of all the
    buttons do nothing. *)
Theorem setType_buttons
    (t : string -> list (string * string) -> string)
    (n : string -> string -> nat -> string)
    (path_basename : string -> string) (displayName : Node -> option string)
    (IconMove IconCopy : string)
    (multiSelect : bool) (type : FilePickerType)
    (nodes : list Node) (path : string) :
  let buttons :=
    setType_factory t n path_basename displayName IconMove IconCopy
      multiSelect type nodes path in
  map btype buttons =
    match type with
    | Choose | Copy | Move => [primary]
    | CopyMove => [primary; secondary]
    | Custom => []
    end /\
  map icon buttons =
    match type with
    | Choose => [None]
    | Copy => [Some IconCopy]
    | Move => [Some IconMove]
    | CopyMove => [Some IconCopy; Some IconMove]
    | Custom => []
    end /\
  count_btype primary buttons = (if FilePickerType_eqb type Custom then 0 else 1) /\
  Forall (fun b => callback b = noop) buttons.
Proof.
  destruct type; cbv zeta; unfold setType_factory;
    cbn [FilePickerType_eqb orb app map btype icon];
    repeat split; repeat constructor.
Qed.

(** X23. The Copy and Move buttons of the type CopyMove name their target:
    the display name of the first selected node if it has one that is not
    empty, else the basename of that node if it is not empty, else the
    basename of the current path if it is not empty. When all of these are
    empty, or nothing is selected and the basename of the path is empty, the
    labels are the plain "Copy" and "Move". *)
Theorem setType_labels_name_target
    (t : string -> list (string * string) -> string)
    (n : string -> string -> nat -> string)
    (path_basename : string -> string) (displayName : Node -> option string)
    (IconMove IconCopy : string)
    (multiSelect : bool) (nodes : list Node) (path : string) :
  let candidates :=
    match nodes with
    | first :: _ => [default "" (displayName first); Node.basename first]
    | [] => []
    end ++ [path_basename path] in
  map label
    (setType_factory t n path_basename displayName IconMove IconCopy
       multiSelect CopyMove nodes path) =
  match List.find Js.truthy candidates with
  | Some target =>
      [t "Copy to {target}" [("target", target)];
       t "Move to {target}" [("target", target)]]
  | None => [t "Copy" []; t "Move" []]
  end.
Proof.
  unfold setType_factory. cbn [FilePickerType_eqb orb app map label].
  unfold Js.or_else, default, id.
  destruct nodes as [|first rest]; [|destruct (displayName first) as [d|]];
    cbn [app List.find].
  - now destruct (Js.truthy (path_basename path)).
  - destruct (Js.truthy d) eqn:Ed; cbv iota; rewrite ?Ed; [reflexivity|].
    destruct (Js.truthy (Node.basename first)) eqn:Eb; cbv iota; rewrite ?Eb;
      [reflexivity|].
    now destruct (Js.truthy (path_basename path)).
  - change (Js.truthy "") with false. cbv iota.
    destruct (Js.truthy (Node.basename first)) eqn:Eb; cbv iota; rewrite ?Eb;
      [reflexivity|].
    now destruct (Js.truthy (path_basename path)).
Qed.

(** ** Buttons of a factory, and pickers of directories *)

(** X24. A button factory is called with the selection, the current path
    and the view of the moment: right after the file list updated the path to
    a path that is not empty, with an empty selection, that path and the files
    view; in the view of the favorites, with the selection as it is and the
    root as the path. *)
Theorem factory_sees_current_state
    (getFile : string -> option Node) (props : FilePickerVue.Props)
    (factory : IFilePickerButtonFactory) (s : FilePickerVue.State) (p : string) :
  FilePickerVue.buttons props = ButtonFactory factory ->
  p <> "" ->
  FilePickerVue.currentButtons props
    (FilePickerVue.step getFile props s (FilePickerVue.FileListPath p)) =
    factory [] p Files /\
  FilePickerVue.currentButtons props
    (FilePickerVue.step getFile props s (FilePickerVue.NavigationView Favorites)) =
    factory (FilePickerVue.selectedFiles s) "/" Favorites.
Proof.
  intros Hb Hp. unfold FilePickerVue.currentButtons. rewrite Hb. split.
  - f_equal. unfold FilePickerVue.currentPath. simpl.
    now apply JsFacts.or_else_truthy.
  - reflexivity.
Qed.

Lemma factory_sees_current_state_witness :
  let props :=
    FilePickerVue.withDefaults
      (FilePicker.dialog_props
         (FilePickerBuilder.build
            (fst (FilePickerBuilder.setButtonFactory Scenario.move_factory
                    (FilePickerBuilder.new "Move"))))) in
  map label
    (FilePickerVue.currentButtons props
       (FilePickerVue.step Scenario.folder_at props (FilePickerVue.setup ∅)
          (FilePickerVue.FileListPath "/Music"))) = ["Move to /Music"].
Proof.
  intros props.
  rewrite (proj1 (factory_sees_current_state Scenario.folder_at props
                    Scenario.move_factory (FilePickerVue.setup ∅) "/Music"
                    eq_refl ltac:(discriminate))).
  reflexivity.
Defined.

(** ** Clicks that wait for the look-up *)

Section AsyncFacts.

Variable props : FilePickerVue.Props.
Variable throws : nat -> list Node -> bool.

Lemma async_run_snoc (d : Async.Dialog) (es : list Async.Event)
    (e : Async.Event) :
  Async.run props throws d (es ++ [e]) =
  Async.step props throws (Async.run props throws d es) e.
Proof. unfold Async.run. now rewrite fold_left_app. Qed.

Lemma async_run_cons (d : Async.Dialog) (e : Async.Event)
    (es : list Async.Event) :
  Async.run props throws d (e :: es) =
  Async.run props throws (Async.step props throws d e) es.
Proof. reflexivity. Qed.

(** What [finish] adds to the two logs. *)
Lemma finish_logs (button : IFilePickerButton) (nodes : list Node)
    (s : FilePickerVue.State) :
  FilePickerVue.buttonCalls (Async.finish throws button nodes s) =
    FilePickerVue.buttonCalls s ++ [(callback button, nodes)] /\
  FilePickerVue.closed (Async.finish throws button nodes s) =
    FilePickerVue.closed s ++
    (if throws (callback button) nodes then [] else [Some nodes]).
Proof.
  unfold Async.finish. destruct (throws (callback button) nodes); simpl.
  - now rewrite app_nil_r.
  - now split.
Qed.

(** An event of the component that is not a click: no callback is called,
    and a [close] that is emitted carries no nodes. *)
Lemma step_not_click (getFile : string -> option Node)
    (s : FilePickerVue.State) (e : FilePickerVue.Event) :
  match e with FilePickerVue.Click _ => False | _ => True end ->
  FilePickerVue.buttonCalls (FilePickerVue.step getFile props s e) =
    FilePickerVue.buttonCalls s /\
  FilePickerVue.closed (FilePickerVue.step getFile props s e) =
    FilePickerVue.closed s ++
    (if is_dismissal e then [None] else []).
Proof.
  intros He.
  destruct e as [?|?|?|?|?|?|?|i|[]|? [] []]; try contradiction;
    cbn [FilePickerVue.step is_dismissal negb];
    unfold FilePickerVue.set_currentPath, FilePickerVue.handleClose,
      FilePickerVue.onCreateFolder; cbn [negb];
    try destruct (FilePickerVue.path props);
    split; try reflexivity; now rewrite app_nil_r.
Qed.

(** The [close] events with nodes and the calls of the callbacks, step by
    step: what a step adds to the two logs. *)
Let added (s s' : FilePickerVue.State) : Prop :=
  exists (calls : list (nat * list Node)) (closes : list (option (list Node))),
    FilePickerVue.buttonCalls s' = FilePickerVue.buttonCalls s ++ calls /\
    FilePickerVue.closed s' = FilePickerVue.closed s ++ closes /\
    sublist (omap id closes) (map snd calls) /\
    ((forall c nodes, throws c nodes = false) ->
     omap id closes = map snd calls).

Lemma added_nothing (s : FilePickerVue.State) : added s s.
Proof.
  exists [], []. rewrite !app_nil_r. repeat split; constructor.
Qed.

Lemma added_finish (button : IFilePickerButton) (nodes : list Node)
    (s : FilePickerVue.State) :
  added s (Async.finish throws button nodes s).
Proof.
  destruct (finish_logs button nodes s) as [Hc Hcl].
  eexists _, _. split; [exact Hc|]. split; [exact Hcl|].
  destruct (throws (callback button) nodes) eqn:Ht; simpl.
  - split; [apply sublist_nil_l|].
    intros Hall. rewrite Hall in Ht. discriminate.
  - now split.
Qed.

Lemma async_step_logs (d : Async.Dialog) (e : Async.Event) :
  added (Async.picker d) (Async.picker (Async.step props throws d e)).
Proof.
  destruct e as [e|k result]; cbn [Async.step].
  - destruct e as [p|p|v|t|l|l|b|i|open|name created reloaded];
      try (match goal with
           | |- context [FilePickerVue.step ?g props ?s ?e] =>
               destruct (step_not_click g s e I) as [Hc Hcl];
               cbn [Async.picker];
               exists [], (if is_dismissal e then [None] else []);
               rewrite Hc, Hcl, app_nil_r;
               split; [reflexivity|]; split; [reflexivity|];
               destruct (is_dismissal e); simpl; split; constructor
           end).
    unfold Async.click.
    destruct (nth_error _ i) as [button|]; [|apply added_nothing].
    destruct (_ && _); cbn [Async.picker];
      [apply added_nothing | apply added_finish].
  - unfold Async.returned.
    destruct (nth_error _ k) as [[button p]|]; [|apply added_nothing].
    destruct result as [dir|]; cbn [Async.picker];
      [apply added_finish | apply added_nothing].
Qed.

Lemma async_run_logs (d : Async.Dialog) (es : list Async.Event) :
  added (Async.picker d) (Async.picker (Async.run props throws d es)).
Proof.
  revert d. induction es as [|e es IH]; intros d; [apply added_nothing|].
  rewrite async_run_cons.
  destruct (IH (Async.step props throws d e)) as (c2 & l2 & Hc2 & Hl2 & Hs2 & He2).
  destruct (async_step_logs d e) as (c1 & l1 & Hc1 & Hl1 & Hs1 & He1).
  exists (c1 ++ c2), (l1 ++ l2). rewrite Hc2, Hl2, Hc1, Hl1, <- !app_assoc.
  split; [reflexivity|]. split; [reflexivity|].
  rewrite omap_app, map_app. split.
  - now apply sublist_app.
  - intros Hall. now rewrite He1, He2.
Qed.

End AsyncFacts.

Section AsyncPickFacts.

Variable throws : nat -> list Node -> bool.
Variable this : FilePicker.t.
Variable storage : gmap string string.

Let props := FilePickerVue.withDefaults (FilePicker.dialog_props this).

Lemma async_pick_snoc (es : list Async.Event) (e : Async.Event) :
  Async.pick throws this storage (es ++ [e]) =
  FilePicker.settle this
    (FilePickerVue.closed
       (Async.picker
          (Async.step props throws (Async.dialog throws this storage es) e))).
Proof. unfold Async.pick, Async.dialog. now rewrite async_run_snoc. Qed.

(** With nothing selected in a picker that may pick directories, a click
    calls no callback and emits nothing: its wrapper waits for the look-up of
    the current path. *)
Lemma click_waits_for_lookup (es : list Async.Event) (i : nat)
    (button : IFilePickerButton) :
  let d := Async.dialog throws this storage es in
  FilePicker.directoriesAllowed this = true ->
  FilePickerVue.selectedFiles (Async.picker d) = [] ->
  nth_error (FilePickerVue.currentButtons props (Async.picker d)) i =
    Some button ->
  Async.step props throws d (Async.Component (FilePickerVue.Click i)) =
  {| Async.picker := Async.picker d;
     Async.awaiting :=
       Async.awaiting d ++
       [(button, FilePickerVue.currentPath props (Async.picker d))] |}.
Proof.
  intros d Hd Hs Hi. cbn [Async.step]. unfold Async.click. fold d.
  rewrite Hi, Hs.
  change (FilePickerVue.allowPickDirectory props)
    with (FilePicker.directoriesAllowed this).
  now rewrite Hd.
Qed.

(** When the look-up returns a node and the dialog has not emitted [close]
    in the meantime, the callback of the button returns and [pick] resolves
    to the path of the node. *)
Lemma lookup_returned_before_close (es : list Async.Event) (k : nat)
    (button : IFilePickerButton) (p : string) (dir : Node) :
  let d := Async.dialog throws this storage es in
  FilePickerVue.closed (Async.picker d) = [] ->
  nth_error (Async.awaiting d) k = Some (button, p) ->
  throws (callback button) [dir] = false ->
  Async.pick throws this storage (es ++ [Async.Returned k (Some dir)]) =
  FilePicker.outcome this (Some [dir]).
Proof.
  intros d Hc Hk Ht. rewrite async_pick_snoc. fold d.
  cbn [Async.step]. unfold Async.returned. rewrite Hk. cbn [Async.picker].
  destruct (finish_logs throws button [dir] (Async.picker d)) as [_ ->].
  rewrite Ht, Hc. apply (settle_cons this (Some [dir]) []).
Qed.

(** With a selection the wrapper does not wait: within the click the
    callback is called with the selection and, when it returns, [pick]
    resolves to the paths of the selection. *)
Lemma selection_resolves_within_click (es : list Async.Event) (i : nat)
    (button : IFilePickerButton) (first : Node) (rest : list Node) :
  let d := Async.dialog throws this storage es in
  FilePickerVue.closed (Async.picker d) = [] ->
  nth_error (FilePickerVue.currentButtons props (Async.picker d)) i =
    Some button ->
  FilePickerVue.selectedFiles (Async.picker d) = first :: rest ->
  throws (callback button) (first :: rest) = false ->
  Async.pick throws this storage
    (es ++ [Async.Component (FilePickerVue.Click i)]) =
  FilePicker.outcome this (Some (first :: rest)).
Proof.
  intros d Hc Hi Hs Ht. rewrite async_pick_snoc. fold d.
  cbn [Async.step]. unfold Async.click. fold d. rewrite Hi, Hs.
  cbn [length Nat.eqb andb Async.picker].
  destruct (finish_logs throws button (first :: rest) (Async.picker d))
    as [_ ->].
  rewrite Ht, Hc. apply (settle_cons this (Some (first :: rest)) []).
Qed.

(** In a picker that may pick directories, as long as the dialog is not
    closed, every [close] carries at least one node. *)
Lemma async_step_carries_nodes (d : Async.Dialog) (e : Async.Event) :
  FilePicker.directoriesAllowed this = true ->
  Async.is_dismissal e = false ->
  Forall carries_nodes (FilePickerVue.closed (Async.picker d)) ->
  Forall carries_nodes
    (FilePickerVue.closed (Async.picker (Async.step props throws d e))).
Proof.
  intros Hd He Hall.
  assert (Hfinish : forall button first rest,
            Forall carries_nodes
              (FilePickerVue.closed
                 (Async.finish throws button (first :: rest) (Async.picker d)))).
  { intros button first rest.
    destruct (finish_logs throws button (first :: rest) (Async.picker d))
      as [_ ->].
    apply Forall_app. split; [exact Hall|].
    destruct (throws _ _); repeat constructor. now exists first, rest. }
  destruct e as [e|k result]; cbn [Async.step].
  - destruct e as [p|p|v|t|l|l|b|i|open|name created reloaded];
      try (match goal with
           | |- context [FilePickerVue.step ?g props ?s ?e] =>
               destruct (step_not_click props g s e I) as [_ Hcl];
               cbn [Async.picker]; rewrite Hcl;
               cbn [Async.is_dismissal] in He; cbn [is_dismissal];
               rewrite ?He, app_nil_r; exact Hall
           end).
    unfold Async.click.
    destruct (nth_error _ i) as [button|]; [|exact Hall].
    change (FilePickerVue.allowPickDirectory props)
      with (FilePicker.directoriesAllowed this). rewrite Hd.
    destruct (FilePickerVue.selectedFiles (Async.picker d))
      as [|first rest] eqn:Hs; cbn [length Nat.eqb andb Async.picker].
    + exact Hall.
    + apply Hfinish.
  - unfold Async.returned.
    destruct (nth_error _ k) as [[button p]|]; [|exact Hall].
    destruct result as [dir|]; cbn [Async.picker]; [apply Hfinish | exact Hall].
Qed.

Lemma async_run_carries_nodes (d : Async.Dialog) (es : list Async.Event) :
  FilePicker.directoriesAllowed this = true ->
  existsb Async.is_dismissal es = false ->
  Forall carries_nodes (FilePickerVue.closed (Async.picker d)) ->
  Forall carries_nodes
    (FilePickerVue.closed (Async.picker (Async.run props throws d es))).
Proof.
  intros Hd. revert d. induction es as [|e es IH]; intros d Hes Hall;
    [exact Hall|].
  simpl in Hes. apply orb_false_iff in Hes as [He Hes].
  rewrite async_run_cons. apply IH; [exact Hes|].
  now apply async_step_carries_nodes.
Qed.

End AsyncPickFacts.

(** C3. A picker that may pick directories is at /Documents with nothing
    selected, and its button is clicked. The wrapper of the button looks the
    current path up and waits. When the look-up returns before anything else
    happens, the node found is handed to the callback of the button and
    [pick] resolves to "/Documents", as the specification has it. When the
    dialog is
    closed while the wrapper waits, [pick] rejects with [FilePickerClosed];
    the look-up returns, the callback of the button is called with the node
    all the same, and the [close] that carries the node comes too late to
    change the promise. *)
Theorem implicit_directory_lost_to_close :
  let navigate := Async.Component (FilePickerVue.BreadcrumbsPath "/Documents") in
  let click := Async.Component (FilePickerVue.Click 0) in
  let close := Async.Component (FilePickerVue.UpdateOpen false) in
  let found := Async.Returned 0 (Some documents) in
  let after := fun es =>
    Async.picker (Async.dialog Async.returns Scenario.directory_picker ∅ es) in
  Async.awaiting
    (Async.dialog Async.returns Scenario.directory_picker ∅ [navigate; click]) =
    [(Scenario.choose, "/Documents")] /\
  Async.pick Async.returns Scenario.directory_picker ∅
    [navigate; click; found] =
    FilePicker.Resolved (FilePicker.SinglePath "/Documents") /\
  Async.pick Async.returns Scenario.directory_picker ∅
    [navigate; click; close; found] =
    FilePicker.Rejected (MkFilePickerClosed "FilePicker: No nodes selected") /\
  FilePickerVue.buttonCalls (after [navigate; click; close; found]) =
    [(callback Scenario.choose, [documents])] /\
  FilePickerVue.closed (after [navigate; click; close; found]) =
    [None; Some [documents]].
Proof. repeat split. Qed.

(** X12. Every [close] event that carries nodes follows a call of the
    callback of a button with these nodes: in every run of a picker, clicks
    that wait for their look-up and callbacks that throw included, the node
    lists of the [close] events are a sub-sequence of the node lists the
    callbacks were called with. When no callback throws they are the same
    lists in the same order: no callback is called without the [close] that
    follows. *)
Theorem closes_follow_callbacks
    (props : FilePickerVue.Props) (throws : nat -> list Node -> bool)
    (storage : gmap string string) (es : list Async.Event) :
  let s := Async.picker
             (Async.run props throws
                {| Async.picker := FilePickerVue.setup storage;
                   Async.awaiting := [] |} es) in
  sublist (omap id (FilePickerVue.closed s))
    (map snd (FilePickerVue.buttonCalls s)) /\
  ((forall c nodes, throws c nodes = false) ->
   omap id (FilePickerVue.closed s) = map snd (FilePickerVue.buttonCalls s)).
Proof.
  destruct (async_run_logs props throws
              {| Async.picker := FilePickerVue.setup storage;
                 Async.awaiting := [] |} es)
    as (calls & closes & Hc & Hl & Hs & He).
  cbv zeta. rewrite Hc, Hl. simpl. now split.
Qed.

(** A click with a file selected, the closing of the dialog and a click
    that waits for its look-up: two callbacks are called, and two [close]
    events carry nodes. *)
Lemma closes_follow_callbacks_witness :
  let s := Async.picker
             (Async.dialog Async.returns Scenario.directory_picker ∅
                [Async.Component (FilePickerVue.FileListSelected [Scenario.photo_png]);
                 Async.Component (FilePickerVue.Click 0);
                 Async.Component (FilePickerVue.UpdateOpen false);
                 Async.Component (FilePickerVue.FileListSelected []);
                 Async.Component (FilePickerVue.Click 0);
                 Async.Returned 0 (Some documents)]) in
  omap id (FilePickerVue.closed s) = [[Scenario.photo_png]; [documents]] /\
  omap id (FilePickerVue.closed s) = map snd (FilePickerVue.buttonCalls s).
Proof.
  intros s. split; [reflexivity|].
  apply (proj2 (closes_follow_callbacks
                  (FilePickerVue.withDefaults
                     (FilePicker.dialog_props Scenario.directory_picker))
                  Async.returns ∅ _)).
  intros c nodes. reflexivity.
Defined.

(** X25. A picker that may pick directories never emits [close] with an
    empty list of nodes, so no [close] of a button makes its [pick] reject:
    when [pick] rejects, the dialog was closed ([update:open] with [false])
    at some point. *)
Theorem directory_picker_rejects_on_dismissal_only
    (throws : nat -> list Node -> bool) (this : FilePicker.t)
    (storage : gmap string string) (es : list Async.Event)
    (err : FilePickerClosed) :
  FilePicker.directoriesAllowed this = true ->
  Async.pick throws this storage es = FilePicker.Rejected err ->
  existsb Async.is_dismissal es = true.
Proof.
  intros Hd Hp. destruct (existsb Async.is_dismissal es) eqn:Hes;
    [reflexivity|]. exfalso.
  pose proof (async_run_carries_nodes throws this
                {| Async.picker := FilePickerVue.setup storage;
                   Async.awaiting := [] |} es Hd Hes
                (List.Forall_nil carries_nodes)) as Hall.
  unfold Async.pick, Async.dialog in Hp.
  destruct (FilePickerVue.closed _) as [|c closes]; [discriminate|].
  rewrite settle_cons in Hp.
  apply Forall_cons in Hall as [(first & rest & ->) _]. discriminate.
Qed.

Lemma directory_picker_rejects_on_dismissal_only_witness :
  existsb Async.is_dismissal
    [Async.Component (FilePickerVue.Click 0);
     Async.Component (FilePickerVue.UpdateOpen false);
     Async.Returned 0 (Some documents)] = true.
Proof.
  apply (directory_picker_rejects_on_dismissal_only Async.returns
           Scenario.directory_picker ∅ _
           (MkFilePickerClosed "FilePicker: No nodes selected")).
  - reflexivity.
  - reflexivity.
Defined.
